(** * TokenDataset: a shallow embedding of [aitextgen/TokenDataset.py]

    The Python module is embedded as Rocq functions over an explicit
    world (a file system and a trace of effects).  Python values are
    modelled as follows:
    - an [int] is a [Z];
    - a [list] is a [list];
    - a [str] holding text (file contents, lines, tokens) is the list
      of its Unicode code points ([text]); paths, modes and messages
      are [string]s;
    - a [bytes] value is a [list byte];
    - an optional argument defaulting to [None] is an [option];
    - a raised exception is a [Raise] result. *)

From Stdlib Require Import ZArith Lia Strings.Byte Ascii DecimalString DecimalN.
From stdpp Require Import gmap strings list.

Local Open Scope Z_scope.

(** ** Exceptions and results *)

Inductive error : Type :=
  | AssertionError (msg : string)
  | TypeError
  | FileNotFoundError
  | UnicodeDecodeError
  | ValueError (msg : string)
  | OverflowError
  | IndexError
  | RuntimeError
  | AttributeError
  | CsvError.

Inductive result (A : Type) : Type :=
  | Ok (a : A)
  | Raise (e : error).
Arguments Ok {A} a.
Arguments Raise {A} e.

Definition is_ok {A} (r : result A) : bool :=
  match r with Ok _ => true | Raise _ => false end.

(** ** Python sequence primitives *)

Section PySeq.
Context {A : Type}.

(** [len(xs)] *)
Definition len (xs : list A) : Z := Z.of_nat (length xs).

(** [bool(xs)] for a list: empty lists are falsy. *)
Definition truthy_list (xs : list A) : bool :=
  match xs with [] => false | _ :: _ => true end.

(** [xs[i]] for an integer [i]: negative indices count from the end,
    anything outside [-len, len) raises IndexError. *)
Definition getitem (xs : list A) (i : Z) : result A :=
  let j := if i <? 0 then i + len xs else i in
  if (j <? 0) || (len xs <=? j) then Raise IndexError
  else match nth_error xs (Z.to_nat j) with
       | Some x => Ok x
       | None => Raise IndexError
       end.

(** Index adjustment of a slice bound, as Python clamps it. *)
Definition adjust_index (n i : Z) : Z :=
  if i <? 0 then (if i + n <? 0 then 0 else i + n)
  else if n <=? i then n else i.

(** [xs[lo:hi]] *)
Definition getslice (xs : list A) (lo hi : Z) : list A :=
  let s := adjust_index (len xs) lo in
  let e := adjust_index (len xs) hi in
  firstn (Z.to_nat (e - s)) (skipn (Z.to_nat s) xs).
End PySeq.

(** [len(range(lo, hi, step))] for a non-zero step. *)
Definition range_length (lo hi step : Z) : Z :=
  if (0 <? step) && (lo <? hi) then 1 + (hi - 1 - lo) / step
  else if (step <? 0) && (hi <? lo) then 1 + (lo - 1 - hi) / (- step)
  else 0.

(** [range(lo, hi, step)], materialised; a zero step raises ValueError. *)
Definition range (lo hi step : Z) : result (list Z) :=
  if step =? 0 then Raise (ValueError "range() arg 3 must not be zero")
  else Ok (map (fun k => lo + Z.of_nat k * step)
               (seq 0 (Z.to_nat (range_length lo hi step)))).

(** ** Bytes and text *)

Definition byte_val (b : byte) : Z := Z.of_N (Byte.to_N b).

Definition byte_of_Z (n : Z) : byte :=
  match Byte.of_N (Z.to_N (n mod 256)) with
  | Some b => b
  | None => x00
  end.

(** A decoded Python [str]: its Unicode code points. *)
Definition text : Type := list Z.

Definition text_of_string (s : string) : text :=
  map (fun b => byte_val b) (String.list_byte_of_string s).

Definition LF : Z := 10.
Definition CR : Z := 13.

(** Strict UTF-8 decoding ([encoding="utf-8"], errors="strict"):
    over-long forms, surrogates and code points above U+10FFFF are
    rejected. *)
Definition is_cont (b : byte) : bool :=
  (128 <=? byte_val b) && (byte_val b <? 192).

Definition cont_bits (b : byte) : Z := byte_val b - 128.

Definition valid_scalar (lo cp : Z) : bool :=
  (lo <=? cp) && (cp <=? 1114111) && negb ((55296 <=? cp) && (cp <=? 57343)).

Fixpoint utf8_decode (bs : list byte) : result text :=
  match bs with
  | [] => Ok []
  | b0 :: r0 =>
    let t := byte_val b0 in
    let push (lo cp : Z) (rest : result text) : result text :=
      if valid_scalar lo cp then
        match rest with Ok cs => Ok (cp :: cs) | Raise e => Raise e end
      else Raise UnicodeDecodeError in
    if t <? 128 then push 0 t (utf8_decode r0)
    else if t <? 192 then Raise UnicodeDecodeError
    else if t <? 224 then
      match r0 with
      | b1 :: r1 =>
        if is_cont b1
        then push 128 ((t - 192) * 64 + cont_bits b1) (utf8_decode r1)
        else Raise UnicodeDecodeError
      | _ => Raise UnicodeDecodeError
      end
    else if t <? 240 then
      match r0 with
      | b1 :: b2 :: r2 =>
        if is_cont b1 && is_cont b2
        then push 2048 (((t - 224) * 64 + cont_bits b1) * 64 + cont_bits b2)
                  (utf8_decode r2)
        else Raise UnicodeDecodeError
      | _ => Raise UnicodeDecodeError
      end
    else if t <? 248 then
      match r0 with
      | b1 :: b2 :: b3 :: r3 =>
        if is_cont b1 && is_cont b2 && is_cont b3
        then push 65536
                  ((((t - 240) * 64 + cont_bits b1) * 64 + cont_bits b2) * 64
                   + cont_bits b3)
                  (utf8_decode r3)
        else Raise UnicodeDecodeError
      | _ => Raise UnicodeDecodeError
      end
    else Raise UnicodeDecodeError
  end.

(** Universal newlines of text mode ([newline=None]): on input, "\r\n"
    and a lone "\r" both become "\n". *)
Fixpoint translate_newlines (cs : text) : text :=
  match cs with
  | [] => []
  | c :: r =>
    if c =? CR then
      LF :: translate_newlines
              (match r with
               | d :: r' => if d =? LF then r' else r
               | [] => r
               end)
    else c :: translate_newlines r
  end.

(** What a file opened with [open(path, "r", encoding="utf-8")] yields
    when read to the end. *)
Definition read_text (bs : list byte) : result text :=
  match utf8_decode bs with
  | Ok cs => Ok (translate_newlines cs)
  | Raise e => Raise e
  end.

(** [f.readline()]: the text up to and including the first "\n" (or all
    of it when there is none), and what is left in the stream. *)
Fixpoint readline (cs : text) : text * text :=
  match cs with
  | [] => ([], [])
  | c :: r =>
    if c =? LF then ([c], r)
    else let '(l, rest) := readline r in (c :: l, rest)
  end.

(** Line boundaries of [str.splitlines]. *)
Definition is_linebreak (c : Z) : bool :=
  (c =? 10) || (c =? 11) || (c =? 12) || (c =? 13)
  || (c =? 28) || (c =? 29) || (c =? 30)
  || (c =? 133) || (c =? 8232) || (c =? 8233).

(** Whitespace characters of [str.isspace]. *)
Definition is_whitespace (c : Z) : bool :=
  ((9 <=? c) && (c <=? 13)) || ((28 <=? c) && (c <=? 32))
  || (c =? 133) || (c =? 160) || (c =? 5760)
  || ((8192 <=? c) && (c <=? 8202))
  || (c =? 8232) || (c =? 8233) || (c =? 8239) || (c =? 8287)
  || (c =? 12288).

(** [s.isspace()]: at least one character and all of them whitespace. *)
Definition isspace (s : text) : bool :=
  truthy_list s && forallb is_whitespace s.

(** [s.splitlines()]: split at every line boundary ("\r\n" counts as
    one); no empty string is produced for a terminator that ends the
    text. *)
Fixpoint splitlines (cs : text) : list text :=
  match cs with
  | [] => []
  | c :: r =>
    if is_linebreak c then
      [] :: splitlines
              (match r with
               | d :: r' => if (c =? CR) && (d =? LF) then r' else r
               | [] => r
               end)
    else
      match splitlines r with
      | [] => [[c]]
      | l :: ls => (c :: l) :: ls
      end
  end.

(** ** The [result] monad *)

#[global] Instance result_ret : MRet result := fun A a => Ok a.
#[global] Instance result_bind : MBind result := fun A B f m =>
  match m with Ok a => f a | Raise e => Raise e end.

(** ** msgpack

    [msgpack.pack] and [msgpack.unpack] belong to the external msgpack
    package.  They are embedded here by the MessagePack wire format,
    for the only shape of value this module stores: an array of arrays
    of integers.  The packer picks the shortest integer and array
    headers, as msgpack does, and raises on integers outside
    [-2^63, 2^64) and on arrays of 2^32 or more items.  The unpacker
    accepts every integer and array header of the format and requires
    the blob to hold exactly one value: bytes after it are refused as
    extra data, and a blob that ends early is refused with msgpack's
    "Unpack failed: incomplete input".  A blob holding a value of
    another shape lies outside the data model and is refused in the
    same way. *)

Module msgpack.

(** [k] bytes, most significant first, of [n] modulo [256^k] (two's
    complement for a negative [n]). *)
Fixpoint be_bytes (k : nat) (n : Z) : list byte :=
  match k with
  | O => []
  | S k' => be_bytes k' (n / 256) ++ [byte_of_Z n]
  end.

Definition be_value (bs : list byte) : Z :=
  fold_left (fun acc b => acc * 256 + byte_val b) bs 0.

Definition pack_int (n : Z) : result (list byte) :=
  if n <? - 2^63 then Raise OverflowError
  else if n <? - 2^31 then Ok (xd3 :: be_bytes 8 n)
  else if n <? - 2^15 then Ok (xd2 :: be_bytes 4 n)
  else if n <? - 2^7 then Ok (xd1 :: be_bytes 2 n)
  else if n <? - 2^5 then Ok (xd0 :: be_bytes 1 n)
  else if n <? 2^7 then Ok [byte_of_Z n]
  else if n <? 2^8 then Ok (xcc :: be_bytes 1 n)
  else if n <? 2^16 then Ok (xcd :: be_bytes 2 n)
  else if n <? 2^32 then Ok (xce :: be_bytes 4 n)
  else if n <? 2^64 then Ok (xcf :: be_bytes 8 n)
  else Raise OverflowError.

Definition pack_array_header (n : Z) : result (list byte) :=
  if n <? 16 then Ok [byte_of_Z (144 + n)]
  else if n <? 2^16 then Ok (xdc :: be_bytes 2 n)
  else if n <? 2^32 then Ok (xdd :: be_bytes 4 n)
  else Raise (ValueError "list is too large").

Fixpoint pack_items {A} (pack_item : A -> result (list byte)) (xs : list A)
  : result (list byte) :=
  match xs with
  | [] => Ok []
  | x :: r =>
    bx ← pack_item x;
    br ← pack_items pack_item r;
    Ok (bx ++ br)
  end.

Definition pack_array {A} (pack_item : A -> result (list byte)) (xs : list A)
  : result (list byte) :=
  h ← pack_array_header (len xs);
  b ← pack_items pack_item xs;
  Ok (h ++ b).

(** [msgpack.pack(examples, f)], as the bytes written to [f]. *)
Definition pack (examples : list (list Z)) : result (list byte) :=
  pack_array (pack_array pack_int) examples.

Definition read_exact (k : nat) (bs : list byte) : option (list byte * list byte) :=
  if (k <=? length bs)%nat then Some (firstn k bs, skipn k bs) else None.

Definition unpack_uint (k : nat) (bs : list byte) : option (Z * list byte) :=
  '(h, t) ← read_exact k bs; Some (be_value h, t).

Definition unpack_sint (k : nat) (bs : list byte) : option (Z * list byte) :=
  '(h, t) ← read_exact k bs;
  let v := be_value h in
  Some (if v <? 2 ^ (8 * Z.of_nat k - 1) then v else v - 2 ^ (8 * Z.of_nat k), t).

Definition unpack_int (bs : list byte) : option (Z * list byte) :=
  match bs with
  | [] => None
  | b :: r =>
    let t := byte_val b in
    if t <? 128 then Some (t, r)
    else if 224 <=? t then Some (t - 256, r)
    else if t =? 204 then unpack_uint 1 r
    else if t =? 205 then unpack_uint 2 r
    else if t =? 206 then unpack_uint 4 r
    else if t =? 207 then unpack_uint 8 r
    else if t =? 208 then unpack_sint 1 r
    else if t =? 209 then unpack_sint 2 r
    else if t =? 210 then unpack_sint 4 r
    else if t =? 211 then unpack_sint 8 r
    else None
  end.

Definition unpack_array_header (bs : list byte) : option (Z * list byte) :=
  match bs with
  | [] => None
  | b :: r =>
    let t := byte_val b in
    if (144 <=? t) && (t <? 160) then Some (t - 144, r)
    else if t =? 220 then unpack_uint 2 r
    else if t =? 221 then unpack_uint 4 r
    else None
  end.

Fixpoint unpack_items {A} (unpack_item : list byte -> option (A * list byte))
    (n : nat) (bs : list byte) : option (list A * list byte) :=
  match n with
  | O => Some ([], bs)
  | S n' =>
    '(x, r) ← unpack_item bs;
    '(xs, r') ← unpack_items unpack_item n' r;
    Some (x :: xs, r')
  end.

Definition unpack_array {A} (unpack_item : list byte -> option (A * list byte))
    (bs : list byte) : option (list A * list byte) :=
  '(n, r) ← unpack_array_header bs;
  unpack_items unpack_item (Z.to_nat n) r.

(** [msgpack.unpack(f)] on a stream holding [bs]: exactly one value,
    nothing after it. *)
Definition unpack (bs : list byte) : result (list (list Z)) :=
  match unpack_array (unpack_array unpack_int) bs with
  | Some (v, []) => Ok v
  | Some (_, _ :: _) => Raise (ValueError "unpack(b) received extra data.")
  | None => Raise (ValueError "Unpack failed: incomplete input")
  end.

End msgpack.

(** ** The world: a file system and a trace of effects *)

Inductive event : Type :=
  | EvTokenizer (method : string)
  | EvOpen (path : option string) (mode : string)
  | EvLogSamples (n : Z)
  | EvLogCaching (destination : option string).

Record world : Type := World {
  files : gmap string (list byte);
  trace : list event
}.

Definition M (A : Type) : Type := world -> result A * world.

#[global] Instance M_ret : MRet M := fun A a w => (Ok a, w).
#[global] Instance M_bind : MBind M := fun A B f m w =>
  match m w with
  | (Ok a, w') => f a w'
  | (Raise e, w') => (Raise e, w')
  end.

Definition raise {A} (e : error) : M A := fun w => (Raise e, w).

Definition lift {A} (r : result A) : M A := fun w => (r, w).

Definition emit (e : event) : M unit :=
  fun w => (Ok tt, World (files w) (trace w ++ [e])).

(** [assert cond, msg] *)
Definition assert_ (cond : bool) (msg : string) : M unit :=
  if cond then mret tt else raise (AssertionError msg).

(** [bool(s)] for a value that is [None] or a string. *)
Definition truthy_str (s : option string) : bool :=
  match s with
  | Some s => negb (String.eqb s "")
  | None => false
  end.

(** [bool(xs)] for a value that is [None] or a list. *)
Definition truthy_opt_list {A} (xs : option (list A)) : bool :=
  match xs with
  | Some xs => truthy_list xs
  | None => false
  end.

(** [bool(b)] for a value that is [None] or a boolean. *)
Definition truthy_opt_bool (b : option bool) : bool :=
  match b with
  | Some b => b
  | None => false
  end.

(** [os.path.isfile(path)] *)
Definition isfile (path : option string) : M bool :=
  fun w =>
    match path with
    | None => (Raise TypeError, w)
    | Some p =>
      (Ok (negb (String.eqb p "") && bool_decide (is_Some (files w !! p))), w)
    end.

(** The bytes of the file at [p]; there is no file at the empty path. *)
Definition file_bytes (p : string) : M (list byte) :=
  fun w =>
    if String.eqb p "" then (Raise FileNotFoundError, w)
    else match files w !! p with
         | Some bs => (Ok bs, w)
         | None => (Raise FileNotFoundError, w)
         end.

(** Creation or truncation of the file at [p]. *)
Definition truncate (p : string) : M string :=
  fun w =>
    if String.eqb p "" then (Raise FileNotFoundError, w)
    else (Ok p, World (<[p := []]> (files w)) (trace w)).

(** [open(path, mode)] for reading, followed by reading the whole
    stream as bytes. *)
Definition open_read (path : option string) (mode : string) : M (list byte) :=
  emit (EvOpen path mode);;
  match path with
  | None => raise TypeError
  | Some p => file_bytes p
  end.

(** [open(path, "wb")]: creates the file or truncates it. *)
Definition open_write (path : option string) : M string :=
  emit (EvOpen path "wb");;
  match path with
  | None => raise TypeError
  | Some p => truncate p
  end.

(** [f.write(data)] on a file just opened for writing at [p]. *)
Definition write (p : string) (data : list byte) : M unit :=
  fun w => (Ok tt, World (<[p := data]> (files w)) (trace w)).

(** [s.endswith(suffix)] *)
Definition endswith (s suffix : string) : bool :=
  let n := String.length s in
  let k := String.length suffix in
  (k <=? n)%nat && String.eqb (String.substring (n - k) k s) suffix.

(** ** The tokenizer capability

    A [transformers.PreTrainedTokenizer], by the members this module
    uses.  [batch_encode_plus] stands for the ["input_ids"] entry of
    what the method returns. *)

Record PreTrainedTokenizer : Type := {
  batch_encode_plus : list text -> bool -> Z -> list (list Z);
  tokenize : text -> list text;
  convert_tokens_to_ids : list text -> list Z;
  build_inputs_with_special_tokens : list Z -> list Z;
  max_len : Z;
  max_len_single_sentence : Z
}.

(** [torch.tensor(xs, dtype=torch.long)]: a 64-bit signed integer
    array; a value that does not fit is refused. *)
Definition fits_int64 (x : Z) : bool := (- 2^63 <=? x) && (x <? 2^63).

Definition tensor_long (xs : list Z) : result (list Z) :=
  if forallb fits_int64 xs then Ok xs else Raise RuntimeError.

(** ** TokenDataset *)

Record TokenDataset : Type := {
  examples : list (list Z);
  str_suffix : string
}.

(** The keyword arguments of [TokenDataset.__init__]. *)
Record init_args : Type := {
  tokenizer : option PreTrainedTokenizer;
  texts : option (list text);
  line_by_line : option bool;
  file_path : option string;
  from_cache : bool;
  header : bool;
  save_cache : bool;
  cache_destination : option string;
  block_size : Z
}.

(** The defaults of the signature of [__init__]. *)
Definition default_args : init_args := {|
  tokenizer := None;
  texts := None;
  line_by_line := None;
  file_path := None;
  from_cache := false;
  header := true;
  save_cache := false;
  cache_destination := None;
  block_size := 1024
|}.

(** The default of the parameter [cache_destination] of [save], bound
    when [save] is called without an argument. *)
Definition save_default_destination : string := "model_cache.msgpack".

(** [TokenDataset.save(self, cache_destination)], [cache_destination]
    being the value bound to the parameter. *)
Definition save (self : TokenDataset) (cache_destination : option string)
  : M unit :=
  assert_ (0 <? len (examples self)) "No data loaded to save.";;
  emit (EvLogCaching cache_destination);;
  f ← open_write cache_destination;
  data ← lift (msgpack.pack (examples self));
  write f data.

(** [TokenDataset.__len__] *)
Definition __len__ (self : TokenDataset) : Z := len (examples self).

(** [TokenDataset.__getitem__] *)
Definition __getitem__ (self : TokenDataset) (item : Z) : result (list Z) :=
  ex ← getitem (examples self) item;
  tensor_long ex.

(** A [for] loop threading the loop-carried state through the body. *)
Fixpoint for_each {A S : Type} (body : S -> A -> M S) (xs : list A) (s : S)
  : M S :=
  match xs with
  | [] => mret s
  | x :: r => s' ← body s x; for_each body r s'
  end.

(** [open(path, "r", encoding="utf-8")] followed by reading the stream
    to its end. *)
Definition open_text (path : string) : M text :=
  bs ← open_read (Some path) "r";
  lift (read_text bs).

(** The tokenizer bound to the argument, at its first use. *)
Definition the_tokenizer (t : option PreTrainedTokenizer)
  : M PreTrainedTokenizer :=
  match t with
  | Some tok => mret tok
  | None => raise AttributeError
  end.




Section Module_TokenDataset.

(** [[str(line) for line in csv.reader(f)]] on a stream holding the
    given text: the rows of Python's [csv] module, each rendered by
    [str].  Both belong to the Python library and are taken as given. *)
Variable csv_records : text -> result (list text).

(** The exception the CSV branch ends with on a file that is not valid
    UTF-8, given the bytes of the file and the [header] flag: the
    stream is decoded while [csv.reader] consumes it, so that an error
    of the csv module on an early row can come before the decoding
    error.  Which of the two is raised is taken as given. *)
Variable csv_undecodable : list byte -> bool -> error.

(** The test of the comprehension in [read_lines_from_file]. *)
Definition keep_line (line : text) : bool :=
  (0 <? len line) && negb (isspace line).

(** [read_lines_from_file(file_path, header)] *)
Definition read_lines_from_file (file_path : string) (header : bool)
  : M (list text) :=
  bs ← open_read (Some file_path) "r";
  match read_text bs with
  | Ok f =>
    let f := if header then snd (readline f) else f in
    if endswith file_path ".csv" then lift (csv_records f)
    else mret (List.filter keep_line (splitlines f))
  | Raise e =>
    raise (if endswith file_path ".csv" then csv_undecodable bs header
           else e)
  end.

(** Lines 38-41: the cache is loaded. *)
Definition load_cache (a : init_args) : M TokenDataset :=
  data ← open_read (file_path a) "rb";
  examples ← lift (msgpack.unpack data);
  mret {| examples := examples; str_suffix := "via cache." |}.

(** Lines 44-48: the texts are tokenized. *)
Definition encode_texts (a : init_args) (texts : list text) : M TokenDataset :=
  tok ← the_tokenizer (tokenizer a);
  emit (EvTokenizer "batch_encode_plus");;
  mret {| examples := batch_encode_plus tok texts true (block_size a);
          str_suffix := "via application." |}.

(** Lines 52-61: the file is processed line by line. *)
Definition encode_lines (a : init_args) : M TokenDataset :=
  b ← isfile (file_path a);
  assert_ b "";;
  match file_path a with
  | None => raise TypeError
  | Some p =>
    texts ← read_lines_from_file p (header a);
    tok ← the_tokenizer (tokenizer a);
    emit (EvTokenizer "batch_encode_plus");;
    mret {| examples := batch_encode_plus tok texts true (block_size a);
            str_suffix := "from line-by-line file at " +:+ p +:+ "." |}
  end.

(** Lines 80-85: the loop over the chunk offsets. *)
Definition chunk_loop (tok : PreTrainedTokenizer) (tokenized_text : list Z)
    (block_size : Z) : M (list (list Z)) :=
  offsets ← lift (range 0 (len tokenized_text - block_size + 1) block_size);
  for_each
    (fun examples i =>
       emit (EvTokenizer "build_inputs_with_special_tokens");;
       mret (examples ++
             [build_inputs_with_special_tokens tok
                (getslice tokenized_text i (i + block_size))]))
    offsets [].

(** Lines 65-87: the file is parsed in chunks. *)
Definition encode_chunks (a : init_args) : M TokenDataset :=
  b ← isfile (file_path a);
  assert_ b "";;
  match file_path a with
  | None => raise TypeError
  | Some p =>
    tok ← the_tokenizer (tokenizer a);
    let block_size :=
      block_size a - (max_len tok - max_len_single_sentence tok) in
    text ← open_text p;
    emit (EvTokenizer "tokenize");;
    emit (EvTokenizer "convert_tokens_to_ids");;
    let tokenized_text := convert_tokens_to_ids tok (tokenize tok text) in
    examples ← chunk_loop tok tokenized_text block_size;
    mret {| examples := examples;
            str_suffix := "from file at " +:+ p +:+ "." |}
  end.

(** Lines 38-87: the [if]/[elif] chain that fills [self.examples]. *)
Definition populate (a : init_args) : M TokenDataset :=
  if from_cache a then load_cache a
  else match texts a with
       | Some ts => encode_texts a ts
       | None =>
         if truthy_opt_bool (line_by_line a) then encode_lines a
         else encode_chunks a
       end.

(** [TokenDataset.__init__] *)
Definition __init__ (a : init_args) : M TokenDataset :=
  assert_ (truthy_opt_list (texts a) || truthy_str (file_path a))
          "texts or file_path must be specified.";;
  (if from_cache a then mret tt
   else assert_ (bool_decide (is_Some (tokenizer a)))
                "A tokenizer must be specified.");;
  self ← populate a;
  emit (EvLogSamples (len (examples self)));;
  (if save_cache a then save self (cache_destination a) else mret tt);;
  mret self.


End Module_TokenDataset.

(** ** Auxiliary notions used in the statements *)

(** The event of one special-token wrapping in the chunk loop. *)
Definition build_event : event :=
  EvTokenizer "build_inputs_with_special_tokens".

(** Integers the msgpack format can hold. *)
Definition packable_int (x : Z) : Prop := - 2 ^ 63 <= x < 2 ^ 64.

(** Example sequences the msgpack format can hold: fewer than 2^32
    examples, each of fewer than 2^32 integers of the format. *)
Definition packable (examples : list (list Z)) : Prop :=
  len examples < 2 ^ 32
  /\ Forall (fun ex => len ex < 2 ^ 32 /\ Forall packable_int ex) examples.


(** The arguments [a] with another tokenizer. *)
Definition with_tokenizer (t : option PreTrainedTokenizer) (a : init_args)
  : init_args :=
  {| tokenizer := t;
     texts := texts a;
     line_by_line := line_by_line a;
     file_path := file_path a;
     from_cache := from_cache a;
     header := header a;
     save_cache := save_cache a;
     cache_destination := cache_destination a;
     block_size := block_size a |}.

(** [s.split("\n")]: the pieces between newline characters. *)
Fixpoint split_on_newline (cs : text) : list text :=
  match cs with
  | [] => [[]]
  | c :: r =>
    if c =? LF then [] :: split_on_newline r
    else match split_on_newline r with
         | [] => [[c]]
         | l :: ls => (c :: l) :: ls
         end
  end.


(** A text whose only line boundaries are newline characters. *)
Definition only_newline_breaks (txt : text) : Prop :=
  Forall (fun c => is_linebreak c = true -> c = LF) txt.


(** ** Sample data

    A character-level tokenizer that frames a sequence with the ids 1
    and 2 and reserves two positions for them, a few files, and
    arguments of the constructor, used to run the code on concrete
    inputs. *)

Definition sample_tokenizer : PreTrainedTokenizer := {|
  batch_encode_plus := fun ts _ _ => map (fun t => 1 :: t ++ [2]) ts;
  tokenize := fun t => map (fun c => [c]) t;
  convert_tokens_to_ids :=
    fun ts => map (fun t => match t with c :: _ => c | [] => 0 end) ts;
  build_inputs_with_special_tokens := fun xs => 1 :: xs ++ [2];
  max_len := 512;
  max_len_single_sentence := 510
|}.

(** A csv reader for runs that read no CSV file. *)
Definition no_csv : text -> result (list text) := fun _ => Raise CsvError.

Definition no_csv_error : list byte -> bool -> error := fun _ _ => CsvError.

(** "hello world" *)
Definition corpus_bytes : list byte :=
  [x68; x65; x6c; x6c; x6f; x20; x77; x6f; x72; x6c; x64].

(** "title\nfirst\n\n  \nsecond\n" *)
Definition lines_bytes : list byte :=
  [x74; x69; x74; x6c; x65; x0a; x66; x69; x72; x73; x74; x0a; x0a;
   x20; x20; x0a; x73; x65; x63; x6f; x6e; x64; x0a].

(** "first\n\n  \nsecond\n" *)
Definition lines_rest_bytes : list byte :=
  [x66; x69; x72; x73; x74; x0a; x0a;
   x20; x20; x0a; x73; x65; x63; x6f; x6e; x64; x0a].

(** "a\fb\n": one newline-terminated line with a form feed inside. *)
Definition pages_bytes : list byte := [x61; x0c; x62; x0a].

Definition sample_world : world :=
  World (<["corpus.txt"%string := corpus_bytes]>
         (<["lines.txt"%string := lines_bytes]>
          (<["pages.txt"%string := pages_bytes]> ∅))) [].

Definition sample_world_rest : world :=
  World (<["lines.txt"%string := lines_rest_bytes]> ∅) [].

Definition sample_dataset : TokenDataset :=
  {| examples := [[1; 104; 105; 2]; [1; 300; 70000; 2]];
     str_suffix := "via application." |}.

Definition empty_dataset : TokenDataset :=
  {| examples := []; str_suffix := "from file at corpus.txt." |}.

(** [TokenDataset(tokenizer, file_path="corpus.txt", block_size=n)] *)
Definition chunk_args (n : Z) : init_args :=
  {| tokenizer := Some sample_tokenizer;
     texts := None;
     line_by_line := None;
     file_path := Some "corpus.txt"%string;
     from_cache := false;
     header := true;
     save_cache := false;
     cache_destination := None;
     block_size := n |}.

(** [TokenDataset(file_path="cache.msgpack", from_cache=True)] *)
Definition cache_args : init_args :=
  {| tokenizer := None;
     texts := None;
     line_by_line := None;
     file_path := Some "cache.msgpack"%string;
     from_cache := true;
     header := true;
     save_cache := false;
     cache_destination := None;
     block_size := 1024 |}.


(** [TokenDataset(tokenizer, texts=["hi"], save_cache=True)] *)
Definition save_cache_args : init_args :=
  {| tokenizer := Some sample_tokenizer;
     texts := Some [[104; 105]];
     line_by_line := None;
     file_path := None;
     from_cache := false;
     header := true;
     save_cache := true;
     cache_destination := None;
     block_size := 1024 |}.

(** [TokenDataset(tokenizer, file_path="corpus.txt", save_cache=True,
    cache_destination="out.msgpack", block_size=n)] *)
Definition chunk_save_args (n : Z) : init_args :=
  {| tokenizer := Some sample_tokenizer;
     texts := None;
     line_by_line := None;
     file_path := Some "corpus.txt"%string;
     from_cache := false;
     header := true;
     save_cache := true;
     cache_destination := Some "out.msgpack"%string;
     block_size := n |}.

(** The tokenizer of the end-to-end scenario of the specification:
    "hello world" is encoded as 10, 20 and "foo" as 30, between the
    special tokens 1 and 2. *)
Definition scenario_ids (t : text) : list Z :=
  if bool_decide (t = text_of_string "hello world") then [10; 20]
  else if bool_decide (t = text_of_string "foo") then [30]
  else [].

Definition scenario_tokenizer : PreTrainedTokenizer := {|
  batch_encode_plus :=
    fun ts specials _ =>
      map (fun t => if specials then 1 :: scenario_ids t ++ [2]
                    else scenario_ids t) ts;
  tokenize := fun t => [t];
  convert_tokens_to_ids := fun ts => concat (map scenario_ids ts);
  build_inputs_with_special_tokens := fun xs => 1 :: xs ++ [2];
  max_len := 1024;
  max_len_single_sentence := 1024
|}.

(** [TokenDataset(tokenizer, texts=["hello world", "foo"])] *)
Definition scenario_args : init_args :=
  {| tokenizer := Some scenario_tokenizer;
     texts := Some [text_of_string "hello world"; text_of_string "foo"];
     line_by_line := None;
     file_path := None;
     from_cache := false;
     header := true;
     save_cache := false;
     cache_destination := None;
     block_size := 1024 |}.

(** [TokenDataset(tokenizer, file_path="lines.txt", line_by_line=True)] *)
Definition lines_args : init_args :=
  {| tokenizer := Some sample_tokenizer;
     texts := None;
     line_by_line := Some true;
     file_path := Some "lines.txt"%string;
     from_cache := false;
     header := true;
     save_cache := false;
     cache_destination := None;
     block_size := 1024 |}.

(** A world whose cache file holds the msgpack encoding of the empty
    array. *)
Definition empty_cache_world : world :=
  World (<["cache.msgpack"%string := [x90]]> ∅) [].

(** ** String representation *)

(** [str(n)] for a natural number: its decimal digits. *)
Definition decimal (n : N) : string := NilEmpty.string_of_uint (N.to_uint n).

(** The grouping of the [","] format option, on the digits read from
    the right: a comma after every three digits that are followed by
    another digit. *)
Fixpoint group_thousands_rev (ds : list ascii) : list ascii :=
  match ds with
  | a :: b :: c :: ((_ :: _) as r) =>
    a :: b :: c :: ","%char :: group_thousands_rev r
  | _ => ds
  end.

Definition group_thousands (s : string) : string :=
  String.string_of_list_ascii
    (rev (group_thousands_rev (rev (String.list_ascii_of_string s)))).

(** ["{:,}".format(n)] *)
Definition format_thousands (n : Z) : string :=
  if n <? 0 then String "-" (group_thousands (decimal (Z.to_N (- n))))
  else group_thousands (decimal (Z.to_N n)).

(** [TokenDataset.__repr__] *)
Definition __repr__ (self : TokenDataset) : string :=
  "TokenDataset containing " +:+ format_thousands (len (examples self))
  +:+ " examples loaded " +:+ str_suffix self.



(** ** Further notions used in the statements *)

(** A computation that, from any world and whatever its outcome, leaves
    every file other than [allowed] as it was; with [allowed = None]
    it leaves every file as it was. *)
Definition writes_within {A} (allowed : option string) (m : M A) : Prop :=
  forall w q, allowed <> Some q -> files (snd (m w)) !! q = files w !! q.


(** Further sample data: a dataset msgpack cannot hold, worlds whose
    cache file is sound, followed by a stray byte, or cut short, a
    file that is not UTF-8, a file of one line, and further arguments
    of the constructor. *)

Definition unpackable_dataset : TokenDataset :=
  {| examples := [[2 ^ 64]]; str_suffix := "via application." |}.

(** The cache of [[[5]]]. *)
Definition old_cache_world : world :=
  World (<["cache.msgpack"%string := [x91; x91; x05]]> ∅) [].



Definition bad_world : world :=
  World (<["corpus.txt"%string := [x68; xff; x69]]> ∅) [].

(** "title\n" *)
Definition one_line_world : world :=
  World (<["lines.txt"%string := [x74; x69; x74; x6c; x65; x0a]]> ∅) [].

(** [TokenDataset(texts=["hi"], from_cache=True)] *)
Definition cache_without_path_args : init_args :=
  {| tokenizer := None;
     texts := Some [[104; 105]];
     line_by_line := None;
     file_path := None;
     from_cache := true;
     header := true;
     save_cache := false;
     cache_destination := None;
     block_size := 1024 |}.

(** [TokenDataset(file_path="out.msgpack", from_cache=True)] *)
Definition reload_args : init_args :=
  {| tokenizer := None;
     texts := None;
     line_by_line := None;
     file_path := Some "out.msgpack"%string;
     from_cache := true;
     header := true;
     save_cache := false;
     cache_destination := None;
     block_size := 1024 |}.

(** [TokenDataset(tokenizer, texts=[], file_path="")] *)
Definition falsy_args : init_args :=
  {| tokenizer := Some sample_tokenizer;
     texts := Some [];
     line_by_line := None;
     file_path := Some ""%string;
     from_cache := false;
     header := true;
     save_cache := false;
     cache_destination := None;
     block_size := 1024 |}.

(** [TokenDataset(tokenizer, file_path="absent.txt")] *)
Definition absent_args : init_args :=
  {| tokenizer := Some sample_tokenizer;
     texts := None;
     line_by_line := None;
     file_path := Some "absent.txt"%string;
     from_cache := false;
     header := true;
     save_cache := false;
     cache_destination := None;
     block_size := 1024 |}.

(** [TokenDataset(tokenizer, texts=["hi"])] *)
Definition texts_only_args : init_args :=
  {| tokenizer := Some sample_tokenizer;
     texts := Some [[104; 105]];
     line_by_line := None;
     file_path := None;
     from_cache := false;
     header := true;
     save_cache := false;
     cache_destination := None;
     block_size := 1024 |}.

(** [TokenDataset(tokenizer, texts=["hi"], file_path="corpus.txt",
    line_by_line=True, header=False)] *)
Definition texts_and_file_args : init_args :=
  {| tokenizer := Some sample_tokenizer;
     texts := Some [[104; 105]];
     line_by_line := Some true;
     file_path := Some "corpus.txt"%string;
     from_cache := false;
     header := false;
     save_cache := false;
     cache_destination := None;
     block_size := 1024 |}.


(** * Properties *)

Import msgpack.

(** ** Running monadic code *)

Lemma bind_ok {A B} (m : M A) (f : A -> M B) w a w' :
  m w = (Ok a, w') -> (m ≫= f) w = f a w'.
Proof. intros H. unfold mbind, M_bind. now rewrite H. Qed.

Lemma bind_raise {A B} (m : M A) (f : A -> M B) w e w' :
  m w = (Raise e, w') -> (m ≫= f) w = (Raise e, w').
Proof. intros H. unfold mbind, M_bind. now rewrite H. Qed.

Lemma bind_inv_ok {A B} (m : M A) (f : A -> M B) w b w2 :
  (m ≫= f) w = (Ok b, w2) ->
  exists a w1, m w = (Ok a, w1) /\ f a w1 = (Ok b, w2).
Proof.
  unfold mbind, M_bind. destruct (m w) as [[a|e] w1]; intros H.
  - now exists a, w1.
  - discriminate.
Qed.

(** ** Chunking *)

Lemma len_nonneg {A} (xs : list A) : 0 <= len xs.
Proof. unfold len. lia. Qed.

Lemma range_length_chunks (L B : Z) :
  0 <= L -> 0 < B -> range_length 0 (L - B + 1) B = L / B.
Proof.
  intros HL HB. unfold range_length.
  replace (0 <? B) with true by (symmetry; apply Z.ltb_lt; lia).
  simpl. destruct (0 <? L - B + 1) eqn:E.
  - apply Z.ltb_lt in E.
    replace (L - B + 1 - 1 - 0) with (L + (-1) * B) by lia.
    rewrite Z.div_add by lia. lia.
  - apply Z.ltb_ge in E.
    replace (B <? 0) with false by (symmetry; apply Z.ltb_ge; lia).
    simpl. rewrite Z.div_small; lia.
Qed.

Lemma getslice_inner {A} (xs : list A) (lo hi : Z) :
  0 <= lo -> lo <= hi -> hi <= len xs ->
  getslice xs lo hi = firstn (Z.to_nat (hi - lo)) (skipn (Z.to_nat lo) xs).
Proof.
  intros H1 H2 H3. unfold getslice, adjust_index.
  replace (lo <? 0) with false by (symmetry; apply Z.ltb_ge; lia).
  replace (hi <? 0) with false by (symmetry; apply Z.ltb_ge; lia).
  destruct (len xs <=? lo) eqn:E1; destruct (len xs <=? hi) eqn:E2;
    try apply Z.leb_le in E1; try apply Z.leb_le in E2;
    try apply Z.leb_gt in E1; try apply Z.leb_gt in E2;
    repeat f_equal; lia.
Qed.

Lemma for_each_append {A B} (ev : event) (f : A -> B) (xs : list A) :
  forall (acc : list B) (w : world),
    for_each (fun examples i => emit ev;; mret (examples ++ [f i])) xs acc w
    = (Ok (acc ++ map f xs),
       World (files w) (trace w ++ repeat ev (length xs))).
Proof.
  induction xs as [|x r IH]; intros acc w; simpl.
  - rewrite !app_nil_r. now destruct w.
  - unfold mbind at 1, M_bind at 1. unfold mbind at 1, M_bind at 1.
    simpl. rewrite IH. simpl. now rewrite <- !app_assoc.
Qed.


Lemma isfile_present p bs w :
  p <> ""%string -> files w !! p = Some bs -> isfile (Some p) w = (Ok true, w).
Proof.
  intros Hp Hf. unfold isfile.
  apply String.eqb_neq in Hp. rewrite Hp. simpl.
  rewrite bool_decide_eq_true_2; [reflexivity | rewrite Hf; eauto].
Qed.

Lemma open_read_present p mode bs w :
  p <> ""%string -> files w !! p = Some bs ->
  open_read (Some p) mode w
  = (Ok bs, World (files w) (trace w ++ [EvOpen (Some p) mode])).
Proof.
  intros Hp Hf. unfold open_read, emit, file_bytes, mbind, M_bind. simpl.
  apply String.eqb_neq in Hp. now rewrite Hp, Hf.
Qed.

Lemma open_text_present p bs txt w :
  p <> ""%string -> files w !! p = Some bs -> read_text bs = Ok txt ->
  open_text p w
  = (Ok txt, World (files w) (trace w ++ [EvOpen (Some p) "r"])).
Proof.
  intros Hp Hf Ht. unfold open_text.
  rewrite (bind_ok _ _ _ _ _ (open_read_present p "r" bs w Hp Hf)).
  unfold lift. now rewrite Ht.
Qed.


Lemma chunk_loop_spec tok (toks : list Z) (B : Z) w :
  0 < B ->
  chunk_loop tok toks B w
  = (Ok (map (build_inputs_with_special_tokens tok)
           (map (fun k => firstn (Z.to_nat B) (skipn (k * Z.to_nat B) toks))
                (seq 0 (Z.to_nat (len toks / B))))),
     World (files w)
           (trace w ++ repeat build_event (Z.to_nat (len toks / B)))).
Proof.
  intros HB. unfold chunk_loop, range, lift.
  replace (B =? 0) with false by (symmetry; apply Z.eqb_neq; lia).
  rewrite range_length_chunks by (auto using len_nonneg).
  unfold mbind at 1, M_bind at 1.
  rewrite (for_each_append build_event
             (fun i => build_inputs_with_special_tokens tok (getslice toks i (i + B)))).
  rewrite length_map, length_seq. simpl. f_equal. f_equal.
  rewrite !map_map. apply map_ext_in. intros k Hk.
  apply in_seq in Hk. f_equal.
  assert (Hq : Z.of_nat k + 1 <= len toks / B).
  { pose proof (Z.div_pos (len toks) B (len_nonneg toks) HB). lia. }
  assert (Hm : B * (len toks / B) <= len toks).
  { apply Z.mul_div_le. lia. }
  rewrite getslice_inner by nia.
  f_equal; [lia|]. f_equal. lia.
Qed.


(** A block size that is not positive: a zero step makes [range] raise,
    a negative one makes the loop run no iteration. *)
Lemma chunk_loop_zero_block tok (toks : list Z) w :
  chunk_loop tok toks 0 w
  = (Raise (ValueError "range() arg 3 must not be zero"), w).
Proof. reflexivity. Qed.

Lemma chunk_loop_negative_block tok (toks : list Z) (B : Z) w :
  B < 0 -> chunk_loop tok toks B w = (Ok [], w).
Proof.
  intros HB. unfold chunk_loop, range, range_length, lift.
  pose proof (len_nonneg toks) as HL.
  assert (E0 : (B =? 0) = false) by (apply Z.eqb_neq; lia).
  assert (E1 : (0 <? B) = false) by (apply Z.ltb_ge; lia).
  assert (E2 : (len toks - B + 1 <? 0) = false) by (apply Z.ltb_ge; lia).
  rewrite E0, E1, E2, andb_false_r. reflexivity.
Qed.

(** ** The msgpack round trip *)

Lemma byte_val_range (b : byte) : 0 <= byte_val b < 256.
Proof.
  unfold byte_val. pose proof (Byte.to_N_bounded b). lia.
Qed.

Lemma byte_val_of_Z (n : Z) : byte_val (byte_of_Z n) = n mod 256.
Proof.
  unfold byte_of_Z, byte_val.
  pose proof (Z.mod_pos_bound n 256 ltac:(lia)) as Hm.
  destruct (Byte.of_N (Z.to_N (n mod 256))) as [b|] eqn:E.
  - apply Byte.to_of_N in E. rewrite E. lia.
  - apply Byte.of_N_None_iff in E. lia.
Qed.

Lemma length_be_bytes (k : nat) : forall n, length (be_bytes k n) = k.
Proof.
  induction k as [|k IH]; intros n; simpl; [reflexivity|].
  rewrite length_app, IH. simpl. lia.
Qed.

Lemma be_value_snoc (bs : list byte) (b : byte) :
  be_value (bs ++ [b]) = be_value bs * 256 + byte_val b.
Proof. unfold be_value. now rewrite fold_left_app. Qed.

Lemma be_value_be_bytes (k : nat) :
  forall n, be_value (be_bytes k n) = n mod 256 ^ Z.of_nat k.
Proof.
  induction k as [|k IH]; intros n.
  - simpl. now rewrite Z.mod_1_r.
  - cbn [be_bytes]. rewrite be_value_snoc, IH, byte_val_of_Z.
    rewrite Nat2Z.inj_succ, Z.pow_succ_r by lia.
    rewrite Z.rem_mul_r by lia. lia.
Qed.

Lemma read_exact_be_bytes (k : nat) (n : Z) (rest : list byte) :
  read_exact k (be_bytes k n ++ rest) = Some (be_bytes k n, rest).
Proof.
  unfold read_exact. rewrite length_app, length_be_bytes.
  replace (k <=? k + length rest)%nat with true
    by (symmetry; apply Nat.leb_le; lia).
  f_equal. f_equal.
  - apply take_app_length'. now rewrite length_be_bytes.
  - apply drop_app_length'. now rewrite length_be_bytes.
Qed.

Lemma unpack_uint_be_bytes (k : nat) (n : Z) (rest : list byte) :
  0 <= n < 256 ^ Z.of_nat k ->
  unpack_uint k (be_bytes k n ++ rest) = Some (n, rest).
Proof.
  intros Hn. unfold unpack_uint. rewrite read_exact_be_bytes. simpl.
  rewrite be_value_be_bytes, Z.mod_small by lia. reflexivity.
Qed.

Lemma unpack_sint_be_bytes (k : nat) (n : Z) (rest : list byte) :
  - 2 ^ (8 * Z.of_nat k - 1) <= n < 0 -> (0 < k)%nat ->
  unpack_sint k (be_bytes k n ++ rest) = Some (n, rest).
Proof.
  intros Hn Hk. unfold unpack_sint. rewrite read_exact_be_bytes. simpl.
  rewrite be_value_be_bytes.
  assert (E : 256 ^ Z.of_nat k = 2 ^ (8 * Z.of_nat k)).
  { change 256 with (2 ^ 8). rewrite <- Z.pow_mul_r by lia. reflexivity. }
  assert (E2 : 2 ^ (8 * Z.of_nat k) = 2 * 2 ^ (8 * Z.of_nat k - 1)).
  { rewrite <- Z.pow_succ_r by lia. f_equal. lia. }
  assert (Hm : n mod 256 ^ Z.of_nat k = n + 2 ^ (8 * Z.of_nat k)).
  { rewrite E. symmetry. apply Z.mod_unique with (q := -1); lia. }
  rewrite Hm.
  replace (n + 2 ^ (8 * Z.of_nat k) <? 2 ^ (8 * Z.of_nat k - 1)) with false
    by (symmetry; apply Z.ltb_ge; lia).
  f_equal. f_equal. lia.
Qed.

Ltac branch :=
  match goal with
  | |- context [if ?x <? ?y then _ else _] =>
    let E := fresh "E" in
    destruct (x <? y) eqn:E;
    [apply Z.ltb_lt in E | apply Z.ltb_ge in E]
  end.

Opaque be_bytes.

Lemma unpack_int_pack_int (x : Z) (bx rest : list byte) :
  pack_int x = Ok bx -> unpack_int (bx ++ rest) = Some (x, rest).
Proof.
  unfold pack_int.
  repeat (branch; [try discriminate|]); try discriminate;
    intros [= <-]; rewrite <- ?app_comm_cons; unfold unpack_int.
  1-4: (match goal with |- context [byte_val ?b] =>
          let v := eval vm_compute in (byte_val b) in
          change (byte_val b) with v end;
        cbv beta iota zeta delta [Z.ltb Z.leb Z.eqb Z.compare Pos.compare Pos.compare_cont Pos.eqb];
        apply unpack_sint_be_bytes; simpl; lia).
  2-5: (match goal with |- context [byte_val ?b] =>
          let v := eval vm_compute in (byte_val b) in
          change (byte_val b) with v end;
        cbv beta iota zeta delta [Z.ltb Z.leb Z.eqb Z.compare Pos.compare Pos.compare_cont Pos.eqb];
        apply unpack_uint_be_bytes; simpl; lia).
  cbn [app]. cbv zeta. rewrite byte_val_of_Z.
  destruct (Z.ltb_spec x 0) as [Hneg|Hpos].
  - replace (x mod 256) with (x + 256)
      by (apply Z.mod_unique with (q := -1); lia).
    replace (x + 256 <? 128) with false by (symmetry; apply Z.ltb_ge; lia).
    replace (224 <=? x + 256) with true by (symmetry; apply Z.leb_le; lia).
    f_equal. f_equal. lia.
  - rewrite Z.mod_small by lia.
    replace (x <? 128) with true by (symmetry; apply Z.ltb_lt; lia).
    reflexivity.
Qed.

Lemma unpack_header_pack_header (n : Z) (h rest : list byte) :
  0 <= n -> pack_array_header n = Ok h ->
  unpack_array_header (h ++ rest) = Some (n, rest).
Proof.
  intros Hn. unfold pack_array_header.
  repeat (branch; [|]); try discriminate;
    intros [= <-]; rewrite <- ?app_comm_cons; unfold unpack_array_header.
  - cbn [app]. cbv zeta. rewrite byte_val_of_Z, Z.mod_small by lia.
    replace ((144 <=? 144 + n) && (144 + n <? 160)) with true
      by (symmetry; apply andb_true_iff; split;
          [apply Z.leb_le | apply Z.ltb_lt]; lia).
    f_equal. f_equal. lia.
  - change (byte_val xdc) with 220. cbv zeta.
    cbv beta iota delta [Z.ltb Z.leb Z.eqb Z.compare Pos.compare Pos.compare_cont Pos.eqb andb].
    apply unpack_uint_be_bytes; simpl; lia.
  - change (byte_val xdd) with 221. cbv zeta.
    cbv beta iota delta [Z.ltb Z.leb Z.eqb Z.compare Pos.compare Pos.compare_cont Pos.eqb andb].
    apply unpack_uint_be_bytes; simpl; lia.
Qed.

Transparent be_bytes.

Section Items.
Context {A : Type}.
Variable pack_item : A -> result (list byte).
Variable unpack_item : list byte -> option (A * list byte).

Lemma unpack_items_pack_items (xs : list A) :
  (forall x bx rest, In x xs -> pack_item x = Ok bx ->
                     unpack_item (bx ++ rest) = Some (x, rest)) ->
  forall b rest,
    pack_items pack_item xs = Ok b ->
    unpack_items unpack_item (length xs) (b ++ rest) = Some (xs, rest).
Proof.
  induction xs as [|x r IH]; intros Hitem b rest; simpl.
  - now intros [= <-].
  - destruct (pack_item x) as [bx|] eqn:Ex; [|discriminate]. simpl.
    destruct (pack_items pack_item r) as [br|] eqn:Er; [|discriminate]. simpl.
    intros [= <-]. rewrite <- app_assoc.
    rewrite (Hitem x bx (br ++ rest) (or_introl eq_refl) Ex). simpl.
    rewrite (IH (fun y by' rest' Hy => Hitem y by' rest' (or_intror Hy)) br rest eq_refl).
    reflexivity.
Qed.

Lemma unpack_array_pack_array (xs : list A) :
  (forall x bx rest, In x xs -> pack_item x = Ok bx ->
                     unpack_item (bx ++ rest) = Some (x, rest)) ->
  forall b rest,
    pack_array pack_item xs = Ok b ->
    unpack_array unpack_item (b ++ rest) = Some (xs, rest).
Proof.
  intros Hitem b rest. unfold pack_array, unpack_array.
  destruct (pack_array_header (len xs)) as [h|] eqn:Eh; [|discriminate]. simpl.
  destruct (pack_items pack_item xs) as [bi|] eqn:Ei; [|discriminate]. simpl.
  intros [= <-]. rewrite <- app_assoc.
  rewrite (unpack_header_pack_header (len xs) h (bi ++ rest))
    by (auto; unfold len; lia).
  simpl. unfold len. rewrite Nat2Z.id.
  now apply unpack_items_pack_items.
Qed.

Lemma pack_items_ok (xs : list A) :
  Forall (fun x => is_ok (pack_item x) = true) xs ->
  is_ok (pack_items pack_item xs) = true.
Proof.
  induction 1 as [|x r Hx _ IH]; simpl; [reflexivity|].
  destruct (pack_item x); [|discriminate]. simpl.
  destruct (pack_items pack_item r); [|discriminate]. reflexivity.
Qed.

Lemma pack_array_ok (xs : list A) :
  len xs < 2 ^ 32 ->
  Forall (fun x => is_ok (pack_item x) = true) xs ->
  is_ok (pack_array pack_item xs) = true.
Proof.
  intros Hl Hx. unfold pack_array, pack_array_header.
  apply pack_items_ok in Hx.
  destruct (pack_items pack_item xs); [|discriminate].
  repeat (branch; [reflexivity|]). lia.
Qed.
End Items.

Lemma unpack_ints_pack_ints (ex : list Z) (b rest : list byte) :
  pack_array pack_int ex = Ok b ->
  unpack_array unpack_int (b ++ rest) = Some (ex, rest).
Proof.
  apply (unpack_array_pack_array pack_int unpack_int).
  intros x bx rest' _. apply unpack_int_pack_int.
Qed.

Lemma unpack_pack (examples : list (list Z)) (b : list byte) :
  pack examples = Ok b -> unpack b = Ok examples.
Proof.
  intros Hp. unfold unpack.
  rewrite <- (app_nil_r b).
  rewrite (unpack_array_pack_array (pack_array pack_int)
             (unpack_array unpack_int) examples
             (fun ex bx rest _ => unpack_ints_pack_ints ex bx rest) b [] Hp).
  reflexivity.
Qed.


Lemma pack_int_ok (x : Z) : packable_int x -> is_ok (pack_int x) = true.
Proof.
  unfold packable_int, pack_int. intros Hx.
  repeat (branch; [reflexivity || lia|]). lia.
Qed.

Lemma pack_ok (examples : list (list Z)) :
  packable examples -> exists b, pack examples = Ok b.
Proof.
  intros [Hl Hex].
  assert (H : is_ok (pack examples) = true).
  { apply pack_array_ok; [exact Hl|].
    eapply Forall_impl; [exact Hex|].
    intros ex [Hlx Hx]. apply pack_array_ok; [exact Hlx|].
    eapply Forall_impl; [exact Hx|]. apply pack_int_ok. }
  destruct (pack examples) as [b|]; [eauto|discriminate].
Qed.

(** ** Computations that do not call the tokenizer *)













(** ** Lines of a text *)


Lemma split_on_newline_cons (cs : text) :
  exists l ls, split_on_newline cs = l :: ls.
Proof.
  destruct cs as [|c r]; simpl; [eauto|].
  destruct (c =? LF); [eauto|]. destruct (split_on_newline r); eauto.
Qed.

Lemma splitlines_newline (r : text) :
  splitlines (LF :: r) = [] :: splitlines r.
Proof. now destruct r. Qed.

Lemma splitlines_plain (c : Z) (r : text) :
  is_linebreak c = false ->
  splitlines (c :: r)
  = match splitlines r with
    | [] => [[c]]
    | l :: ls => (c :: l) :: ls
    end.
Proof. intros H. cbn [splitlines]. now rewrite H. Qed.

Lemma splitlines_split_on_newline (cs : text) :
  only_newline_breaks cs ->
  split_on_newline cs = splitlines cs
  \/ split_on_newline cs = splitlines cs ++ [[]].
Proof.
  induction 1 as [|c r Hc _ IH]; [now right|].
  destruct (Z.eqb_spec c LF) as [->|Hne].
  - rewrite splitlines_newline. cbn [split_on_newline].
    change (LF =? LF) with true. cbv iota.
    destruct IH as [-> | ->]; [now left | now right].
  - destruct (is_linebreak c) eqn:Eb; [now specialize (Hc eq_refl)|].
    rewrite (splitlines_plain c r Eb). cbn [split_on_newline].
    replace (c =? LF) with false by (symmetry; now apply Z.eqb_neq).
    destruct (split_on_newline_cons r) as (l & ls & Hs). rewrite Hs in *.
    destruct IH as [IH | IH].
    + rewrite <- IH. now left.
    + destruct (splitlines r) as [|l' ls'].
      * injection IH as -> ->. now left.
      * injection IH as -> ->. now right.
Qed.

Lemma filter_keep_line_split (cs : text) :
  only_newline_breaks cs ->
  List.filter keep_line (splitlines cs)
  = List.filter keep_line (split_on_newline cs).
Proof.
  intros H. destruct (splitlines_split_on_newline cs H) as [-> | ->].
  - reflexivity.
  - rewrite List.filter_app. simpl. now rewrite app_nil_r.
Qed.

(** ** Indexing *)

Lemma getitem_inside {A} (xs : list A) (j : Z) :
  0 <= j < len xs ->
  exists x, nth_error xs (Z.to_nat j) = Some x /\ getitem xs j = Ok x.
Proof.
  intros Hj. unfold getitem. cbv zeta.
  assert (E1 : (j <? 0) = false) by (apply Z.ltb_ge; lia).
  assert (E2 : (len xs <=? j) = false) by (apply Z.leb_gt; lia).
  rewrite !E1, E2. simpl. destruct (nth_error xs (Z.to_nat j)) as [x|] eqn:E; [now exists x|].
  apply nth_error_None in E. unfold len in Hj. lia.
Qed.

Lemma getitem_negative {A} (xs : list A) (i : Z) :
  i < 0 -> getitem xs i = getitem xs (i + len xs) \/ i + len xs < 0.
Proof.
  intros Hi. destruct (Z.ltb_spec (i + len xs) 0) as [Hlt|Hge]; [now right|].
  left. unfold getitem. cbv zeta.
  assert (E1 : (i <? 0) = true) by (apply Z.ltb_lt; lia).
  assert (E2 : (i + len xs <? 0) = false) by (apply Z.ltb_ge; lia).
  now rewrite !E1, !E2.
Qed.

(** C8, as amended.  [get(index)] raises IndexError for every index
    outside [-length(), length()); for an index in [0, length()) it
    returns the example at that index, and for an index in
    [-length(), 0) the example at [index + length()], each as a 64-bit
    integer array equal element for element to the stored sequence
    when the stored integers fit 64-bit signed integers. *)
Theorem getitem_contract (self : TokenDataset) (index : Z) :
  (index < - __len__ self \/ __len__ self <= index ->
   __getitem__ self index = Raise IndexError)
  /\ (0 <= index < __len__ self ->
      exists ex, nth_error (examples self) (Z.to_nat index) = Some ex
                 /\ __getitem__ self index = tensor_long ex
                 /\ (forallb fits_int64 ex = true ->
                     __getitem__ self index = Ok ex))
  /\ (- __len__ self <= index < 0 ->
      exists ex, nth_error (examples self) (Z.to_nat (index + __len__ self))
                 = Some ex
                 /\ __getitem__ self index = tensor_long ex
                 /\ (forallb fits_int64 ex = true ->
                     __getitem__ self index = Ok ex)).
Proof.
  unfold __len__, __getitem__. split; [|split].
  - intros Hout. unfold getitem. cbv zeta.
    pose proof (len_nonneg (examples self)) as Hl.
    destruct (Z.ltb_spec index 0) as [Hneg|Hpos].
    + assert (E : (index + len (examples self) <? 0) = true)
        by (apply Z.ltb_lt; lia).
      now rewrite E.
    + assert (E1 : (index <? 0) = false) by (apply Z.ltb_ge; lia).
      assert (E2 : (len (examples self) <=? index) = true)
        by (apply Z.leb_le; lia).
      now rewrite E1, E2.
  - intros Hin. destruct (getitem_inside (examples self) index Hin)
      as (ex & Hnth & Hget).
    exists ex. rewrite Hget. simpl. split; [exact Hnth|]. split; [reflexivity|].
    intros Hfit. unfold tensor_long. now rewrite Hfit.
  - intros Hneg.
    destruct (getitem_inside (examples self) (index + len (examples self)))
      as (ex & Hnth & Hget); [lia|].
    destruct (getitem_negative (examples self) index) as [Heq|Hlow]; [lia| |lia].
    exists ex. rewrite Heq, Hget. simpl. split; [exact Hnth|].
    split; [reflexivity|].
    intros Hfit. unfold tensor_long. now rewrite Hfit.
Qed.

Section Properties.

Variable csv_records : text -> result (list text).
Variable csv_undecodable : list byte -> bool -> error.

Lemma truthy_str_nonempty p : p <> ""%string -> truthy_str (Some p) = true.
Proof. intros Hp. simpl. apply String.eqb_neq in Hp. now rewrite Hp. Qed.

Lemma populate_chunked (a : init_args) tok p bs txt w :
  from_cache a = false -> texts a = None ->
  truthy_opt_bool (line_by_line a) = false ->
  tokenizer a = Some tok -> file_path a = Some p -> p <> ""%string ->
  files w !! p = Some bs -> read_text bs = Ok txt ->
  populate csv_records csv_undecodable a w
  = (chunk_loop tok (convert_tokens_to_ids tok (tokenize tok txt))
       (block_size a - (max_len tok - max_len_single_sentence tok))
     ≫= fun examples =>
          mret {| examples := examples;
                  str_suffix := "from file at " +:+ p +:+ "." |})
      (World (files w)
         (trace w ++ [EvOpen (Some p) "r"; EvTokenizer "tokenize";
                      EvTokenizer "convert_tokens_to_ids"])).
Proof.
  intros Hc Ht Hl Htok Hp Hne Hf Hr.
  unfold populate. rewrite Hc, Ht, Hl. unfold encode_chunks. rewrite Hp, Htok.
  rewrite (bind_ok _ _ _ _ _ (isfile_present p bs w Hne Hf)).
  unfold assert_. unfold mbind at 1, M_bind at 1. simpl.
  unfold mbind at 1, M_bind at 1. simpl.
  rewrite (bind_ok _ _ _ _ _ (open_text_present p bs txt w Hne Hf Hr)).
  unfold emit. unfold mbind at 1, M_bind at 1. simpl.
  unfold mbind at 1, M_bind at 1. simpl.
  now rewrite <- !app_assoc.
Qed.


(** ** Saving *)

Lemma save_writes (self : TokenDataset) (dest : string) (b : list byte) w :
  examples self <> [] -> dest <> ""%string -> pack (examples self) = Ok b ->
  save self (Some dest) w
  = (Ok tt,
     World (<[dest := b]> (files w))
           (trace w ++ [EvLogCaching (Some dest); EvOpen (Some dest) "wb"])).
Proof.
  intros Hne Hd Hp. unfold save.
  replace (0 <? len (examples self)) with true.
  2:{ symmetry. apply Z.ltb_lt. unfold len.
      destruct (examples self); [congruence | simpl; lia]. }
  unfold assert_, open_write, truncate, emit, lift, write, mbind, M_bind.
  apply String.eqb_neq in Hd. simpl. rewrite Hd, Hp. simpl.
  rewrite insert_insert_eq, <- app_assoc. reflexivity.
Qed.

Lemma save_without_destination (self : TokenDataset) w :
  examples self <> [] ->
  save self None w
  = (Raise TypeError,
     World (files w) (trace w ++ [EvLogCaching None; EvOpen None "wb"])).
Proof.
  intros Hne. unfold save.
  replace (0 <? len (examples self)) with true.
  2:{ symmetry. apply Z.ltb_lt. unfold len.
      destruct (examples self); [congruence | simpl; lia]. }
  unfold assert_, open_write, emit, raise, mbind, M_bind. simpl.
  now rewrite <- app_assoc.
Qed.

Lemma save_no_examples (self : TokenDataset) (dest : option string) w :
  examples self = [] ->
  save self dest w = (Raise (AssertionError "No data loaded to save."), w).
Proof. intros H0. unfold save. now rewrite H0. Qed.

(** C5.  [save] on a dataset with zero examples raises the assertion
    error "No data loaded to save." and leaves the world as it was: no
    file is opened, created or modified, whatever the destination. *)
Theorem save_empty_rejected (self : TokenDataset) (dest : option string) w :
  __len__ self = 0 ->
  save self dest w = (Raise (AssertionError "No data loaded to save."), w)
  /\ files (snd (save self dest w)) = files w
  /\ trace (snd (save self dest w)) = trace w.
Proof.
  unfold __len__, len. intros H0.
  assert (Hnil : examples self = []).
  { destruct (examples self); [reflexivity | simpl in H0; lia]. }
  rewrite (save_no_examples self dest w Hnil). now repeat split.
Qed.

(** ** Loading what was saved *)

Lemma load_cache_present (a : init_args) p (b : list byte) w :
  from_cache a = true -> file_path a = Some p -> p <> ""%string ->
  files w !! p = Some b ->
  populate csv_records csv_undecodable a w
  = (match unpack b with
     | Ok ex => Ok {| examples := ex; str_suffix := "via cache." |}
     | Raise e => Raise e
     end,
     World (files w) (trace w ++ [EvOpen (Some p) "rb"])).
Proof.
  intros Hc Hp Hne Hf. unfold populate, load_cache. rewrite Hc, Hp.
  rewrite (bind_ok _ _ _ _ _ (open_read_present p "rb" b w Hne Hf)).
  unfold lift, mbind, M_bind. simpl. now destruct (unpack b).
Qed.


(** ** Selection of the ingestion strategy *)



Lemma init_ok_inv (a : init_args) w (self : TokenDataset) w' :
  __init__ csv_records csv_undecodable a w = (Ok self, w') ->
  (truthy_opt_list (texts a) || truthy_str (file_path a) = true)
  /\ (from_cache a = false -> is_Some (tokenizer a))
  /\ exists w1,
       populate csv_records csv_undecodable a w = (Ok self, w1)
       /\ (if save_cache a
           then save self (cache_destination a)
                  (World (files w1)
                     (trace w1 ++ [EvLogSamples (len (examples self))]))
                = (Ok tt, w')
           else w' = World (files w1)
                       (trace w1 ++ [EvLogSamples (len (examples self))])).
Proof.
  unfold __init__. intros H.
  apply bind_inv_ok in H. destruct H as ([] & w0 & H1 & H).
  apply bind_inv_ok in H. destruct H as ([] & w0' & H2 & H).
  apply bind_inv_ok in H. destruct H as (self' & w1 & H3 & H).
  apply bind_inv_ok in H. destruct H as ([] & w2 & H4 & H).
  apply bind_inv_ok in H. destruct H as ([] & w3 & H5 & H).
  injection H as <- <-.
  unfold assert_ in H1.
  destruct (truthy_opt_list (texts a) || truthy_str (file_path a)) eqn:E1;
    [|discriminate]. injection H1 as <-.
  assert (w0' = w /\ (from_cache a = false -> is_Some (tokenizer a)))
    as [-> Htok].
  { destruct (from_cache a).
    - injection H2 as <-. split; [reflexivity | discriminate].
    - unfold assert_ in H2.
      destruct (bool_decide (is_Some (tokenizer a))) eqn:E2; [|discriminate].
      injection H2 as <-. apply bool_decide_eq_true_1 in E2. now split. }
  unfold emit in H4. injection H4 as <-.
  split; [reflexivity|]. split; [exact Htok|].
  exists w1. split; [exact H3|].
  destruct (save_cache a); [exact H5|]. now injection H5 as <-.
Qed.

Lemma save_ok_inv (self : TokenDataset) (dest : option string) w w' :
  save self dest w = (Ok tt, w') ->
  examples self <> []
  /\ exists p b, dest = Some p /\ p <> ""%string
                 /\ pack (examples self) = Ok b
                 /\ files w' = <[p := b]> (files w).
Proof.
  unfold save. intros H.
  apply bind_inv_ok in H. destruct H as ([] & w0 & H1 & H).
  apply bind_inv_ok in H. destruct H as ([] & w1 & H2 & H).
  apply bind_inv_ok in H. destruct H as (f & w2 & H3 & H).
  apply bind_inv_ok in H. destruct H as (data & w3 & H4 & H).
  unfold assert_ in H1.
  destruct (0 <? len (examples self)) eqn:E; [|discriminate].
  injection H1 as <-. unfold emit in H2. injection H2 as <-.
  split.
  { intros Hnil. rewrite Hnil in E. discriminate. }
  unfold open_write in H3.
  apply bind_inv_ok in H3. destruct H3 as ([] & w4 & H3a & H3).
  unfold emit in H3a. injection H3a as <-.
  destruct dest as [p|]; [|discriminate].
  unfold truncate in H3. destruct (String.eqb p "") eqn:Ep; [discriminate|].
  injection H3 as <- <-.
  unfold lift in H4. injection H4 as H4 <-.
  unfold write in H. injection H as <-.
  exists p, data. apply String.eqb_neq in Ep.
  repeat split; auto. simpl. apply insert_insert_eq.
Qed.



(** ** Loading what was saved, continued *)

(** C2.  [save] to a path followed by a construction with
    [from_cache=True] on that path yields an examples sequence equal to
    the one saved: whenever [save] returns, the construction succeeds
    and its examples are the saved ones, integers, nesting and order
    alike; and [save] does return for every non-empty examples
    sequence that the msgpack format can hold (fewer than 2^32
    examples, each of fewer than 2^32 integers in [-2^63, 2^64)). *)
Theorem save_then_load_roundtrip
    (self : TokenDataset) (dest : string) (a : init_args) w :
  from_cache a = true -> file_path a = Some dest -> save_cache a = false ->
  (forall w1,
     save self (Some dest) w = (Ok tt, w1) ->
     exists (w2 : world) (loaded : TokenDataset),
       __init__ csv_records csv_undecodable a w1 = (Ok loaded, w2)
       /\ examples loaded = examples self)
  /\ (examples self <> [] -> packable (examples self) -> dest <> ""%string ->
      exists w1, save self (Some dest) w = (Ok tt, w1)).
Proof.
  intros Hc Hp Hs. split.
  - intros w1 Hsave. apply save_ok_inv in Hsave.
    destruct Hsave as (_ & p & b & [= <-] & Hd & Hb & Hf).
    eexists. exists {| examples := examples self; str_suffix := "via cache." |}.
    split; [|reflexivity].
    unfold __init__.
    rewrite Hp, Hc, Hs, (truthy_str_nonempty dest Hd), orb_true_r.
    unfold assert_. unfold mbind at 1, M_bind at 1. simpl.
    unfold mbind at 1, M_bind at 1. simpl.
    assert (Hlook : files w1 !! dest = Some b)
      by (rewrite Hf; apply lookup_insert_eq).
    pose proof (load_cache_present a dest b w1 Hc Hp Hd Hlook) as Hload.
    rewrite (unpack_pack _ _ Hb) in Hload.
    rewrite (bind_ok _ _ _ _ _ Hload). reflexivity.
  - intros Hne Hpk Hd. destruct (pack_ok _ Hpk) as [b Hb].
    eexists. apply (save_writes self dest b w Hne Hd Hb).
Qed.

(** ** Emptiness of the examples *)

Lemma init_after_populate (a : init_args) w (self : TokenDataset) w1 :
  truthy_opt_list (texts a) || truthy_str (file_path a) = true ->
  (from_cache a = false -> is_Some (tokenizer a)) ->
  populate csv_records csv_undecodable a w = (Ok self, w1) ->
  __init__ csv_records csv_undecodable a w
  = ((if save_cache a then save self (cache_destination a) else mret tt)
       ≫= fun _ => mret self)
      (World (files w1) (trace w1 ++ [EvLogSamples (len (examples self))])).
Proof.
  intros H1 H2 Hpop. unfold __init__. rewrite H1.
  unfold assert_ at 1. unfold mbind at 1, M_bind at 1. simpl.
  assert (Hsecond :
    (if from_cache a then mret tt
     else assert_ (bool_decide (is_Some (tokenizer a)))
                  "A tokenizer must be specified.") w = (Ok tt, w)).
  { destruct (from_cache a); [reflexivity|].
    now rewrite bool_decide_eq_true_2 by auto. }
  rewrite (bind_ok _ _ _ _ _ Hsecond).
  rewrite (bind_ok _ _ _ _ _ Hpop).
  reflexivity.
Qed.

(** C4, as amended.  A successful construction with [save_cache]
    requested has a non-empty examples sequence.  When the selected
    strategy produces zero examples, the construction fails with the
    assertion of [save] if [save_cache] is requested, and otherwise
    succeeds and yields a dataset with no examples. *)
Theorem nonempty_only_when_saving (a : init_args) w :
  (forall self w',
     __init__ csv_records csv_undecodable a w = (Ok self, w') ->
     save_cache a = true -> examples self <> [])
  /\ (forall self w1,
        truthy_opt_list (texts a) || truthy_str (file_path a) = true ->
        (from_cache a = false -> is_Some (tokenizer a)) ->
        populate csv_records csv_undecodable a w = (Ok self, w1) ->
        examples self = [] ->
        fst (__init__ csv_records csv_undecodable a w)
        = if save_cache a
          then Raise (AssertionError "No data loaded to save.")
          else Ok self).
Proof.
  split.
  - intros self w' H Hs. apply init_ok_inv in H.
    destruct H as (_ & _ & w1 & _ & Hsave). rewrite Hs in Hsave.
    now apply save_ok_inv in Hsave.
  - intros self w1 H1 H2 Hpop Hnil.
    rewrite (init_after_populate a w self w1 H1 H2 Hpop).
    destruct (save_cache a); [|reflexivity].
    erewrite bind_raise; [reflexivity|].
    now apply save_no_examples.
Qed.

(** ** Preconditions of the constructor *)

(** C9.  Without texts and without a file path the construction raises
    the assertion error "texts or file_path must be specified.";
    when [from_cache] is false and no tokenizer is given it raises an
    assertion error; when [from_cache] is true the tokenizer argument
    is not looked at, so none is required. *)
Theorem constructor_preconditions (a : init_args) w :
  (texts a = None -> file_path a = None ->
   __init__ csv_records csv_undecodable a w
   = (Raise (AssertionError "texts or file_path must be specified."), w))
  /\ (from_cache a = false -> tokenizer a = None ->
      exists msg, __init__ csv_records csv_undecodable a w = (Raise (AssertionError msg), w))
  /\ (from_cache a = true ->
      forall t, __init__ csv_records csv_undecodable (with_tokenizer t a) w
                = __init__ csv_records csv_undecodable a w).
Proof.
  split; [|split].
  - intros Ht Hp. unfold __init__. now rewrite Ht, Hp.
  - intros Hc Ht. unfold __init__. rewrite Hc, Ht.
    destruct (truthy_opt_list (texts a) || truthy_str (file_path a)).
    + now exists "A tokenizer must be specified."%string.
    + now exists "texts or file_path must be specified."%string.
  - intros Hc t. unfold __init__, populate, load_cache. simpl.
    now rewrite Hc.
Qed.

(** ** Saving from the constructor *)

Lemma init_save_cache_persists (a : init_args) w (self : TokenDataset) w' :
  __init__ csv_records csv_undecodable a w = (Ok self, w') -> save_cache a = true ->
  exists p b, cache_destination a = Some p
              /\ pack (examples self) = Ok b
              /\ files w' !! p = Some b
              /\ unpack b = Ok (examples self).
Proof.
  intros H Hs. apply init_ok_inv in H.
  destruct H as (_ & _ & w1 & _ & Hsave). rewrite Hs in Hsave.
  apply save_ok_inv in Hsave.
  destruct Hsave as (_ & p & b & Hd & _ & Hb & Hf).
  exists p, b. repeat split; auto.
  - rewrite Hf. apply lookup_insert_eq.
  - now apply unpack_pack.
Qed.

Lemma init_save_cache_without_destination
    (a : init_args) w (self : TokenDataset) w1 :
  truthy_opt_list (texts a) || truthy_str (file_path a) = true ->
  (from_cache a = false -> is_Some (tokenizer a)) ->
  populate csv_records csv_undecodable a w = (Ok self, w1) ->
  examples self <> [] ->
  save_cache a = true -> cache_destination a = None ->
  fst (__init__ csv_records csv_undecodable a w) = Raise TypeError
  /\ files (snd (__init__ csv_records csv_undecodable a w)) = files w1.
Proof.
  intros H1 H2 Hpop Hne Hs Hd.
  rewrite (init_after_populate a w self w1 H1 H2 Hpop), Hs, Hd.
  erewrite bind_raise; [|now apply save_without_destination].
  now split.
Qed.

(** ** Reading lines *)

Lemma read_lines_present (path : string) (header : bool) bs txt w :
  path <> ""%string -> files w !! path = Some bs -> read_text bs = Ok txt ->
  read_lines_from_file csv_records csv_undecodable path header w
  = (let f := if header then snd (readline txt) else txt in
     if endswith path ".csv" then csv_records f
     else Ok (List.filter keep_line (splitlines f)),
     World (files w) (trace w ++ [EvOpen (Some path) "r"])).
Proof.
  intros Hne Hf Ht. unfold read_lines_from_file.
  rewrite (bind_ok _ _ _ _ _ (open_read_present path "r" bs w Hne Hf)).
  rewrite Ht. cbv zeta. now destruct (endswith path ".csv").
Qed.

(** C7, as amended.  For a file that is not a CSV, the helper returns,
    in their original order, exactly the lines that are non-empty and
    not made of whitespace only, where the lines are those of
    [str.splitlines]: the text is split at newlines and also at the
    other line boundaries (VT, FF, FS, GS, RS, NEL, LS, PS).  When the
    text has no such other boundary, these are exactly the
    newline-split lines that are non-empty and not whitespace-only. *)
Theorem non_csv_lines_filtered
    (path : string) (header : bool) (w : world) (bs : list byte) (txt : text) :
  endswith path ".csv" = false -> path <> ""%string ->
  files w !! path = Some bs -> read_text bs = Ok txt ->
  let body := if header then snd (readline txt) else txt in
  fst (read_lines_from_file csv_records csv_undecodable path header w)
  = Ok (List.filter keep_line (splitlines body))
  /\ (only_newline_breaks body ->
      fst (read_lines_from_file csv_records csv_undecodable path header w)
      = Ok (List.filter keep_line (split_on_newline body))).
Proof.
  intros Hcsv Hne Hf Ht body.
  rewrite (read_lines_present path header bs txt w Hne Hf Ht), Hcsv.
  simpl. fold body. split; [reflexivity|].
  intros Hb. now rewrite filter_keep_line_split.
Qed.

End Properties.

(** * Runs of the code *)

(** The end-to-end scenario of the specification. *)
Example scenario_run :
  exists self w',
    __init__ no_csv no_csv_error scenario_args sample_world = (Ok self, w')
    /\ examples self = [[1; 10; 20; 2]; [1; 30; 2]]
    /\ __len__ self = 2
    /\ __getitem__ self 0 = Ok [1; 10; 20; 2]
    /\ trace w' = [EvTokenizer "batch_encode_plus"; EvLogSamples 2].
Proof. do 2 eexists. repeat split. Qed.

(** Line by line, with the header skipped and the blank lines dropped. *)
Example lines_run :
  fst (__init__ no_csv no_csv_error lines_args sample_world)
  = Ok {| examples := [[1; 102; 105; 114; 115; 116; 2];
                       [1; 115; 101; 99; 111; 110; 100; 2]];
          str_suffix := "from line-by-line file at lines.txt." |}.
Proof. vm_compute. reflexivity. Qed.

(** Chunks of three tokens out of eleven, saved to the cache. *)
Example chunk_save_run :
  let w1 := snd (__init__ no_csv no_csv_error (chunk_save_args 5) sample_world) in
  fst (__init__ no_csv no_csv_error (chunk_save_args 5) sample_world)
  = Ok {| examples := [[1; 104; 101; 108; 2]; [1; 108; 111; 32; 2];
                       [1; 119; 111; 114; 2]];
          str_suffix := "from file at corpus.txt." |}
  /\ files w1 !! "out.msgpack"%string
     = Some [x93; x95; x01; x68; x65; x6c; x02;
                  x95; x01; x6c; x6f; x20; x02;
                  x95; x01; x77; x6f; x72; x02]
  /\ trace w1
     = [EvOpen (Some "corpus.txt"%string) "r"; EvTokenizer "tokenize";
        EvTokenizer "convert_tokens_to_ids"; build_event; build_event;
        build_event; EvLogSamples 3;
        EvLogCaching (Some "out.msgpack"%string);
        EvOpen (Some "out.msgpack"%string) "wb"].
Proof. repeat split; vm_compute; reflexivity. Qed.

(** A cache holding the empty array loads, and yields no examples. *)
Example empty_cache_run :
  fst (__init__ no_csv no_csv_error cache_args empty_cache_world)
  = Ok {| examples := []; str_suffix := "via cache." |}.
Proof. vm_compute. reflexivity. Qed.

(** An effective block size that is not positive: with the two
    reserved positions of the sample tokenizer, [block_size=2] makes
    the construction raise and [block_size=1] yields no example. *)
Example nonpositive_block_run :
  fst (__init__ no_csv no_csv_error (chunk_args 2) sample_world)
  = Raise (ValueError "range() arg 3 must not be zero")
  /\ fst (__init__ no_csv no_csv_error (chunk_args 1) sample_world) = Ok empty_dataset.
Proof. split; vm_compute; reflexivity. Qed.

(** Integers at the borders of the msgpack integer formats survive the
    round trip; 2^64 is refused by the packer. *)
Example pack_run :
  (b ← pack [[0; 127; 128; 255; 256; 65535; 65536; 2 ^ 32 - 1; 2 ^ 32;
              2 ^ 64 - 1; -1; -32; -33; -128; -129; - 2 ^ 15; - 2 ^ 15 - 1;
              - 2 ^ 31; - 2 ^ 31 - 1; - 2 ^ 63]; []];
   unpack b)
  = Ok [[0; 127; 128; 255; 256; 65535; 65536; 2 ^ 32 - 1; 2 ^ 32;
         2 ^ 64 - 1; -1; -32; -33; -128; -129; - 2 ^ 15; - 2 ^ 15 - 1;
         - 2 ^ 31; - 2 ^ 31 - 1; - 2 ^ 63]; []]
  /\ pack [[2 ^ 64]] = Raise OverflowError.
Proof. split; vm_compute; reflexivity. Qed.

(** Text mode: UTF-8 decoding and universal newlines. *)
Example read_text_run :
  read_text [x61; xc3; xa9; x0d; x0a; xe2; x80; xa8; xf0; x9f; x98; x80;
             x0d; x62]
  = Ok [97; 233; 10; 8232; 128512; 10; 98]
  /\ read_text [xc0; x80] = Raise UnicodeDecodeError
  /\ read_text [xed; xa0; x80] = Raise UnicodeDecodeError.
Proof. repeat split. Qed.

(** * The properties on the sample data *)


Lemma save_then_load_roundtrip_witness :
  exists (w1 w2 : world) (loaded : TokenDataset),
    save sample_dataset (Some "cache.msgpack"%string) sample_world = (Ok tt, w1)
    /\ __init__ no_csv no_csv_error cache_args w1 = (Ok loaded, w2)
    /\ examples loaded = [[1; 104; 105; 2]; [1; 300; 70000; 2]].
Proof.
  destruct (save_then_load_roundtrip no_csv no_csv_error sample_dataset "cache.msgpack"
              cache_args sample_world eq_refl eq_refl eq_refl)
    as [Hload Hsave].
  destruct Hsave as [w1 Hw1].
  - discriminate.
  - split; [reflexivity|].
    repeat (constructor; [split; [reflexivity|]|]);
      repeat (constructor; [unfold packable_int; lia|]); constructor.
  - discriminate.
  - destruct (Hload w1 Hw1) as (w2 & loaded & Hinit & Hex).
    exists w1, w2, loaded. now repeat split.
Defined.

Lemma nonempty_only_when_saving_witness :
  examples {| examples := [[1; 104; 101; 108; 2]; [1; 108; 111; 32; 2];
                           [1; 119; 111; 114; 2]];
              str_suffix := "from file at corpus.txt." |} <> []
  /\ fst (__init__ no_csv no_csv_error (chunk_save_args 1024) sample_world)
     = Raise (AssertionError "No data loaded to save.").
Proof.
  split.
  - eapply (proj1 (nonempty_only_when_saving no_csv no_csv_error (chunk_save_args 5)
                     sample_world));
      [vm_compute; reflexivity | reflexivity].
  - eapply (proj2 (nonempty_only_when_saving no_csv no_csv_error (chunk_save_args 1024)
                     sample_world) empty_dataset);
      [reflexivity | intros _; eexists; reflexivity
       | vm_compute; reflexivity | reflexivity].
Defined.

Lemma save_empty_rejected_witness :
  save empty_dataset (Some "out.msgpack"%string) sample_world
  = (Raise (AssertionError "No data loaded to save."), sample_world)
  /\ files (snd (save empty_dataset (Some "out.msgpack"%string) sample_world))
     = files sample_world
  /\ trace (snd (save empty_dataset (Some "out.msgpack"%string) sample_world))
     = trace sample_world.
Proof.
  exact (save_empty_rejected empty_dataset (Some "out.msgpack"%string)
           sample_world eq_refl).
Defined.

Lemma non_csv_lines_filtered_witness :
  fst (read_lines_from_file no_csv no_csv_error "lines.txt" true sample_world)
  = Ok [[102; 105; 114; 115; 116]; [115; 101; 99; 111; 110; 100]]
  /\ fst (read_lines_from_file no_csv no_csv_error "lines.txt" true sample_world)
     = Ok (List.filter keep_line
             (split_on_newline
                [102; 105; 114; 115; 116; 10; 10; 32; 32; 10;
                 115; 101; 99; 111; 110; 100; 10])).
Proof.
  pose proof (non_csv_lines_filtered no_csv no_csv_error "lines.txt" true sample_world
                lines_bytes
                [116; 105; 116; 108; 101; 10; 102; 105; 114; 115; 116; 10; 10;
                 32; 32; 10; 115; 101; 99; 111; 110; 100; 10]
                eq_refl ltac:(discriminate) eq_refl eq_refl) as [H1 H2].
  split; [exact H1|]. apply H2.
  repeat (constructor; [vm_compute; intro; (reflexivity || discriminate)|]).
  constructor.
Defined.

Lemma getitem_contract_witness :
  __getitem__ sample_dataset 2 = Raise IndexError
  /\ __getitem__ sample_dataset (-3) = Raise IndexError
  /\ __getitem__ sample_dataset 1 = Ok [1; 300; 70000; 2]
  /\ __getitem__ sample_dataset (-2) = Ok [1; 104; 105; 2].
Proof.
  split; [|split; [|split]].
  - apply (proj1 (getitem_contract sample_dataset 2)).
    right. vm_compute. discriminate.
  - apply (proj1 (getitem_contract sample_dataset (-3))).
    left. reflexivity.
  - destruct (proj1 (proj2 (getitem_contract sample_dataset 1)))
      as (ex & Hnth & _ & Hfit).
    + split; [vm_compute; discriminate | reflexivity].
    + injection Hnth as <-. apply Hfit. reflexivity.
  - destruct (proj2 (proj2 (getitem_contract sample_dataset (-2))))
      as (ex & Hnth & _ & Hfit).
    + split; [vm_compute; discriminate | reflexivity].
    + injection Hnth as <-. apply Hfit. reflexivity.
Defined.

Lemma constructor_preconditions_witness :
  __init__ no_csv no_csv_error default_args sample_world
  = (Raise (AssertionError "texts or file_path must be specified."),
     sample_world)
  /\ (exists msg,
        __init__ no_csv no_csv_error (with_tokenizer None (chunk_args 5)) sample_world
        = (Raise (AssertionError msg), sample_world))
  /\ __init__ no_csv no_csv_error (with_tokenizer (Some sample_tokenizer) cache_args)
       sample_world
     = __init__ no_csv no_csv_error cache_args sample_world.
Proof.
  split; [|split].
  - exact (proj1 (constructor_preconditions no_csv no_csv_error default_args sample_world)
             eq_refl eq_refl).
  - exact (proj1 (proj2 (constructor_preconditions no_csv no_csv_error
                           (with_tokenizer None (chunk_args 5)) sample_world))
             eq_refl eq_refl).
  - exact (proj2 (proj2 (constructor_preconditions no_csv no_csv_error cache_args
                           sample_world))
             eq_refl (Some sample_tokenizer)).
Defined.

(** C4, the claim as stated fails: the constructor returns a dataset
    with no examples for a file shorter than the effective block size
    (11 tokens, blocks of 1022). *)
Lemma construction_without_examples :
  fst (__init__ no_csv no_csv_error (chunk_args 1024) sample_world) = Ok empty_dataset
  /\ examples empty_dataset = [].
Proof. split; [vm_compute; reflexivity | reflexivity]. Qed.

(** C7, the claim as stated fails: the file "a\fb\n" has the single
    newline-split line "a\fb", which is neither empty nor whitespace,
    yet the helper returns the two lines "a" and "b". *)
Lemma form_feed_splits_a_line :
  read_text pages_bytes = Ok [97; 12; 98; 10]
  /\ List.filter keep_line (split_on_newline [97; 12; 98; 10])
     = [[97; 12; 98]]
  /\ fst (read_lines_from_file no_csv no_csv_error "pages.txt" false sample_world)
     = Ok [[97]; [98]].
Proof. repeat split; vm_compute; reflexivity. Qed.

(** C8, the claim as stated fails: the index -1 lies outside
    [0, length()), yet [get(-1)] returns the last example. *)
Lemma negative_index_is_served :
  __len__ sample_dataset = 2
  /\ __getitem__ sample_dataset (-1) = Ok [1; 300; 70000; 2].
Proof. split; reflexivity. Qed.

(** C10, the code at the failing input:
    [TokenDataset(tokenizer, texts=["hi"], save_cache=True)] populates
    one example and then raises TypeError from [open(None, "wb")]; no
    file is written, although [save] called with its own default
    destination on the same example writes "model_cache.msgpack". *)
Theorem save_cache_without_destination_raises :
  fst (populate no_csv no_csv_error save_cache_args sample_world)
  = Ok {| examples := [[1; 104; 105; 2]]; str_suffix := "via application." |}
  /\ fst (__init__ no_csv no_csv_error save_cache_args sample_world) = Raise TypeError
  /\ files (snd (__init__ no_csv no_csv_error save_cache_args sample_world))
     = files sample_world
  /\ fst (save {| examples := [[1; 104; 105; 2]];
                  str_suffix := "via application." |}
            (Some save_default_destination) sample_world)
     = Ok tt.
Proof. repeat split; vm_compute; reflexivity. Qed.

(** * Further properties *)

(** ** Files a computation may write *)

Lemma within_still {A} (allowed : option string) (m : M A) :
  (forall w, files (snd (m w)) = files w) -> writes_within allowed m.
Proof. intros H w q _. now rewrite H. Qed.

Lemma within_bind {A B} (allowed : option string) (m : M A) (f : A -> M B) :
  writes_within allowed m -> (forall a, writes_within allowed (f a)) ->
  writes_within allowed (m ≫= f).
Proof.
  intros Hm Hf w q Hq. specialize (Hm w q Hq).
  unfold mbind, M_bind. destruct (m w) as [[a|e] w1]; simpl in Hm.
  - now rewrite (Hf a w1 q Hq).
  - exact Hm.
Qed.

Lemma within_none_files {A} (m : M A) w :
  writes_within None m -> files (snd (m w)) = files w.
Proof. intros H. apply map_eq. intros q. now apply H. Qed.

Lemma within_weaken {A} (allowed : option string) (m : M A) :
  writes_within None m -> writes_within allowed m.
Proof. intros H. apply within_still. intros w. now apply within_none_files. Qed.

Lemma within_assert allowed (c : bool) (msg : string) :
  writes_within allowed (assert_ c msg).
Proof. apply within_still. now destruct c. Qed.

Lemma within_isfile allowed (path : option string) :
  writes_within allowed (isfile path).
Proof. apply within_still. intros w. now destruct path. Qed.

Lemma within_open_read allowed (path : option string) (mode : string) :
  writes_within allowed (open_read path mode).
Proof.
  apply within_still. intros w.
  unfold open_read, emit, raise, file_bytes, mbind, M_bind.
  destruct path as [p|]; [|reflexivity]. simpl.
  destruct (String.eqb p ""); [reflexivity|].
  now destruct (files w !! p).
Qed.

Lemma within_open_text allowed (path : string) :
  writes_within allowed (open_text path).
Proof.
  unfold open_text. apply within_bind; [apply within_open_read|].
  intros bs. now apply within_still.
Qed.

Lemma within_the_tokenizer allowed (t : option PreTrainedTokenizer) :
  writes_within allowed (the_tokenizer t).
Proof. apply within_still. now destruct t. Qed.

Lemma within_for_each {A S} allowed (body : S -> A -> M S) (xs : list A) :
  (forall s x, writes_within allowed (body s x)) ->
  forall s, writes_within allowed (for_each body xs s).
Proof.
  intros Hb. induction xs as [|x r IH]; intros s; simpl.
  - now apply within_still.
  - apply within_bind; [apply Hb | apply IH].
Qed.

Lemma within_chunk_loop allowed tok (toks : list Z) (B : Z) :
  writes_within allowed (chunk_loop tok toks B).
Proof.
  unfold chunk_loop. apply within_bind; [now apply within_still|].
  intros offsets. apply within_for_each. intros s x.
  apply within_bind; [now apply within_still | intros; now apply within_still].
Qed.

Lemma within_save (self : TokenDataset) (dest : option string) :
  writes_within dest (save self dest).
Proof.
  intros w q Hq.
  unfold save, assert_, emit, raise, open_write, truncate, lift, write,
    mbind, M_bind.
  destruct (0 <? len (examples self)); [|reflexivity]. simpl.
  destruct dest as [p|]; [|reflexivity]. simpl.
  destruct (String.eqb p ""); [reflexivity|]. simpl.
  assert (Hpq : p <> q) by congruence.
  destruct (pack (examples self)); simpl.
  - now rewrite !lookup_insert_ne.
  - now rewrite lookup_insert_ne.
Qed.

(** ** What [save] leaves behind *)

(** X2.  When [save] returns, the destination holds the packed examples
    whatever it held before, every other file is as it was, the trace
    gains the log entry and the opening of the destination, and saving
    again changes no file. *)
Theorem save_replaces_destination
    (self : TokenDataset) (dest : option string) (w w1 : world) :
  save self dest w = (Ok tt, w1) ->
  exists p b,
    dest = Some p
    /\ pack (examples self) = Ok b
    /\ files w1 !! p = Some b
    /\ (forall q, q <> p -> files w1 !! q = files w !! q)
    /\ trace w1 = trace w ++ [EvLogCaching dest; EvOpen dest "wb"]
    /\ exists w2, save self dest w1 = (Ok tt, w2) /\ files w2 = files w1.
Proof.
  intros Hsave. pose proof (save_ok_inv _ _ _ _ Hsave) as Hinv.
  destruct Hinv as (Hne & p & b & -> & Hp & Hb & Hf).
  rewrite (save_writes self p b w Hne Hp Hb) in Hsave.
  injection Hsave as <-. simpl.
  exists p, b. repeat split; auto.
  - apply lookup_insert_eq.
  - intros q Hq. now apply lookup_insert_ne.
  - eexists. split; [apply (save_writes self p b _ Hne Hp Hb)|].
    simpl. apply insert_insert_eq.
Qed.

(** X3.  When the examples cannot be packed, [save] raises the packer's
    error after the destination was opened for writing: the file at
    the destination is left empty, whatever it held before, and every
    other file is as it was. *)
Theorem save_failure_truncates
    (self : TokenDataset) (dest : string) (e : error) (w : world) :
  examples self <> [] -> dest <> ""%string ->
  pack (examples self) = Raise e ->
  fst (save self (Some dest) w) = Raise e
  /\ files (snd (save self (Some dest) w)) !! dest = Some []
  /\ (forall q, q <> dest ->
        files (snd (save self (Some dest) w)) !! q = files w !! q).
Proof.
  intros Hne Hd Hp. unfold save.
  replace (0 <? len (examples self)) with true.
  2:{ symmetry. apply Z.ltb_lt. unfold len.
      destruct (examples self); [congruence | simpl; lia]. }
  unfold assert_, open_write, truncate, emit, lift, write, mbind, M_bind.
  apply String.eqb_neq in Hd. simpl. rewrite Hd, Hp. simpl.
  split; [reflexivity|]. split; [apply lookup_insert_eq|].
  intros q Hq. now apply lookup_insert_ne.
Qed.

(** ** Blobs that are not a cache *)











(** ** Text that cannot be decoded, lines of a text *)

Lemma utf8_decode_error_bounded (n : nat) :
  forall bs e, (length bs <= n)%nat ->
    utf8_decode bs = Raise e -> e = UnicodeDecodeError.
Proof.
  induction n as [|n IH]; intros bs e Hn.
  - destruct bs; [discriminate | simpl in Hn; lia].
  - destruct bs as [|b0 r0]; [discriminate|].
    cbn [utf8_decode]. cbv zeta.
    repeat match goal with
    | |- context [match ?l with [] => _ | _ :: _ => _ end] =>
      is_var l; destruct l
    | |- context [if ?c then _ else _] => destruct c
    | |- context [utf8_decode ?l] =>
      let E := fresh "E" in
      destruct (utf8_decode l) eqn:E;
      [|apply IH in E; [subst|simpl in *; lia]]
    end; congruence.
Qed.

Lemma read_text_error (bs : list byte) :
  is_ok (read_text bs) = false -> read_text bs = Raise UnicodeDecodeError.
Proof.
  unfold read_text. destruct (utf8_decode bs) as [cs|e] eqn:E; [discriminate|].
  intros _. now rewrite (utf8_decode_error_bounded (length bs) bs e (le_n _) E).
Qed.

Lemma splitlines_no_breaks_bounded (n : nat) :
  forall cs, (length cs <= n)%nat ->
    Forall (Forall (fun c => is_linebreak c = false)) (splitlines cs).
Proof.
  induction n as [|n IH]; intros cs Hn.
  - destruct cs; [constructor | simpl in Hn; lia].
  - destruct cs as [|c r]; [constructor|].
    cbn [splitlines]. simpl in Hn.
    destruct (is_linebreak c) eqn:Ec.
    + constructor; [constructor|]. apply IH.
      destruct r as [|d r']; [simpl; lia|].
      destruct ((c =? CR) && (d =? LF)); simpl in *; lia.
    + pose proof (IH r ltac:(lia)) as Hr.
      destruct (splitlines r) as [|l ls].
      * repeat constructor. exact Ec.
      * inversion Hr; subst. constructor; [|assumption].
        constructor; assumption.
Qed.

Lemma splitlines_no_breaks (cs : text) :
  Forall (Forall (fun c => is_linebreak c = false)) (splitlines cs).
Proof. apply (splitlines_no_breaks_bounded (length cs)). lia. Qed.

Lemma readline_without_newline (line : text) :
  ~ In LF line ->
  readline line = (line, []) /\ readline (line ++ [LF]) = (line ++ [LF], []).
Proof.
  induction line as [|c r IH]; intros Hnl; [now split|].
  simpl in Hnl. apply Decidable.not_or in Hnl. destruct Hnl as [Hc Hr].
  destruct (IH Hr) as [IH1 IH2]. cbn [readline app].
  replace (c =? LF) with false by (symmetry; apply Z.eqb_neq; congruence).
  now rewrite IH1, IH2.
Qed.

(** ** The first line and the rest *)






Section Further_Properties.
Variable csv_records : text -> result (list text).
Variable csv_undecodable : list byte -> bool -> error.

Lemma within_read_lines allowed (path : string) (header : bool) :
  writes_within allowed (read_lines_from_file csv_records csv_undecodable path header).
Proof.
  unfold read_lines_from_file. apply within_bind; [apply within_open_read|].
  intros bs. destruct (read_text bs) as [f|e]; [|now apply within_still].
  cbv zeta. destruct (endswith path ".csv"); now apply within_still.
Qed.

Lemma within_populate allowed (a : init_args) :
  writes_within allowed (populate csv_records csv_undecodable a).
Proof.
  unfold populate. destruct (from_cache a).
  { unfold load_cache. apply within_bind; [apply within_open_read|].
    intros data. apply within_bind; [now apply within_still | intros; now apply within_still]. }
  destruct (texts a) as [ts|].
  { unfold encode_texts. apply within_bind; [apply within_the_tokenizer|].
    intros tok. apply within_bind; [now apply within_still | intros; now apply within_still]. }
  destruct (truthy_opt_bool (line_by_line a)).
  - unfold encode_lines. apply within_bind; [apply within_isfile|]. intros b.
    apply within_bind; [apply within_assert|]. intros _.
    destruct (file_path a) as [p|]; [|now apply within_still].
    apply within_bind; [apply within_read_lines|]. intros lines.
    apply within_bind; [apply within_the_tokenizer|]. intros tok.
    apply within_bind; [now apply within_still | intros; now apply within_still].
  - unfold encode_chunks. apply within_bind; [apply within_isfile|]. intros b.
    apply within_bind; [apply within_assert|]. intros _.
    destruct (file_path a) as [p|]; [|now apply within_still].
    apply within_bind; [apply within_the_tokenizer|]. intros tok.
    apply within_bind; [apply within_open_text|]. intros txt.
    apply within_bind; [now apply within_still|]. intros _.
    apply within_bind; [now apply within_still|]. intros _.
    apply within_bind; [apply within_chunk_loop|]. intros ex.
    now apply within_still.
Qed.

(** X1.  The constructor, whether it returns or raises, creates or
    modifies no file other than [cache_destination], and no file at
    all when [save_cache] is false. *)
Theorem constructor_writes_only_the_cache (a : init_args) (w : world) :
  (forall q, cache_destination a <> Some q ->
     files (snd (__init__ csv_records csv_undecodable a w)) !! q = files w !! q)
  /\ (save_cache a = false -> files (snd (__init__ csv_records csv_undecodable a w)) = files w).
Proof.
  assert (Hgen : forall allowed,
            (save_cache a = true -> allowed = cache_destination a) ->
            writes_within allowed (__init__ csv_records csv_undecodable a)).
  { intros allowed Hal. unfold __init__.
    apply within_bind; [apply within_assert|]. intros _.
    apply within_bind.
    { destruct (from_cache a); [now apply within_still | apply within_assert]. }
    intros _. apply within_bind; [apply within_populate|]. intros self.
    apply within_bind; [now apply within_still|]. intros _.
    apply within_bind; [|intros; now apply within_still].
    destruct (save_cache a); [|now apply within_still].
    rewrite (Hal eq_refl). apply within_save. }
  split.
  - intros q Hq. now apply (Hgen (cache_destination a)).
  - intros Hs. apply within_none_files. apply Hgen. congruence.
Qed.

(** ** Failures of the cache strategy *)

Lemma init_from_cache (a : init_args) (p : string) (blob : list byte) w :
  from_cache a = true -> file_path a = Some p -> p <> ""%string ->
  files w !! p = Some blob ->
  __init__ csv_records csv_undecodable a w
  = match unpack blob with
    | Raise e =>
      (Raise e, World (files w) (trace w ++ [EvOpen (Some p) "rb"]))
    | Ok ex =>
      let self := {| examples := ex; str_suffix := "via cache." |} in
      ((if save_cache a then save self (cache_destination a) else mret tt)
         ≫= fun _ => mret self)
        (World (files w)
           ((trace w ++ [EvOpen (Some p) "rb"]) ++ [EvLogSamples (len ex)]))
    end.
Proof.
  intros Hc Hp Hne Hf.
  pose proof (load_cache_present csv_records csv_undecodable a p blob w Hc Hp Hne Hf) as Hload.
  destruct (unpack blob) as [ex|e].
  - cbv zeta.
    rewrite (init_after_populate csv_records csv_undecodable a w _ _
               ltac:(rewrite Hp, (truthy_str_nonempty p Hne); apply orb_true_r)
               ltac:(congruence) Hload).
    reflexivity.
  - unfold __init__.
    rewrite Hp, Hc, (truthy_str_nonempty p Hne), orb_true_r.
    unfold assert_. unfold mbind at 1, M_bind at 1. simpl.
    unfold mbind at 1, M_bind at 1. simpl.
    now rewrite (bind_raise _ _ _ _ _ Hload).
Qed.

(** X4.  With [from_cache=True] the path is opened without a prior
    existence check: a path that names no file makes the construction
    raise FileNotFoundError, and no path at all (texts being given)
    makes it raise TypeError; in both cases no file is changed and the
    tokenizer is not called. *)
Theorem cache_path_failures (a : init_args) (w : world) :
  from_cache a = true ->
  (forall p, file_path a = Some p -> p <> ""%string -> files w !! p = None ->
     __init__ csv_records csv_undecodable a w
     = (Raise FileNotFoundError,
        World (files w) (trace w ++ [EvOpen (Some p) "rb"])))
  /\ (file_path a = None -> truthy_opt_list (texts a) = true ->
      __init__ csv_records csv_undecodable a w
      = (Raise TypeError, World (files w) (trace w ++ [EvOpen None "rb"]))).
Proof.
  intros Hc. split.
  - intros p Hp Hne Hf. unfold __init__, populate, load_cache.
    rewrite Hp, Hc, (truthy_str_nonempty p Hne), orb_true_r.
    unfold assert_, open_read, emit, file_bytes, mbind, M_bind. simpl.
    apply String.eqb_neq in Hne. now rewrite Hne, Hf.
  - intros Hp Ht. unfold __init__, populate, load_cache.
    now rewrite Hp, Hc, Ht.
Qed.


(** X6.  A dataset constructed with [save_cache=True] can be constructed
    again from its cache: a later construction with [from_cache=True]
    on the cache destination succeeds, without a tokenizer, and has
    the same examples. *)
Theorem cached_dataset_reloads
    (a a' : init_args) (w w1 : world) (self : TokenDataset) :
  __init__ csv_records csv_undecodable a w = (Ok self, w1) -> save_cache a = true ->
  from_cache a' = true -> file_path a' = cache_destination a ->
  save_cache a' = false ->
  exists loaded w2,
    __init__ csv_records csv_undecodable a' w1 = (Ok loaded, w2)
    /\ examples loaded = examples self
    /\ str_suffix loaded = "via cache."%string
    /\ files w2 = files w1.
Proof.
  intros Hinit Hs Hc' Hp' Hs'.
  apply init_ok_inv in Hinit. destruct Hinit as (_ & _ & w0 & _ & Hsave).
  rewrite Hs in Hsave. apply save_ok_inv in Hsave.
  destruct Hsave as (_ & p & b & Hd & Hne & Hb & Hf).
  rewrite Hd in Hp'.
  assert (Hlook : files w1 !! p = Some b)
    by (rewrite Hf; apply lookup_insert_eq).
  pose proof (init_from_cache a' p b w1 Hc' Hp' Hne Hlook) as Hinit'.
  rewrite (unpack_pack _ _ Hb), Hs' in Hinit'.
  do 2 eexists. split; [exact Hinit'|]. now repeat split.
Qed.

(** ** Failures and edges of the file strategies *)

Lemma init_populate_raises (a : init_args) w (e : error) w1 :
  truthy_opt_list (texts a) || truthy_str (file_path a) = true ->
  (from_cache a = false -> is_Some (tokenizer a)) ->
  populate csv_records csv_undecodable a w = (Raise e, w1) ->
  __init__ csv_records csv_undecodable a w = (Raise e, w1).
Proof.
  intros H1 H2 Hpop. unfold __init__. rewrite H1.
  unfold assert_ at 1. unfold mbind at 1, M_bind at 1. simpl.
  assert (Hsecond :
    (if from_cache a then mret tt
     else assert_ (bool_decide (is_Some (tokenizer a)))
                  "A tokenizer must be specified.") w = (Ok tt, w)).
  { destruct (from_cache a); [reflexivity|].
    now rewrite bool_decide_eq_true_2 by auto. }
  rewrite (bind_ok _ _ _ _ _ Hsecond).
  now rewrite (bind_raise _ _ _ _ _ Hpop).
Qed.

(** X7.  An empty list of texts and an empty path count as not given:
    with texts [None] or [[]] and a path [None] or [""], the
    construction raises the assertion error "texts or file_path must
    be specified." before anything is read or logged, also when
    [from_cache] is true or a tokenizer is given. *)
Theorem falsy_arguments_count_as_missing (a : init_args) (w : world) :
  texts a = None \/ texts a = Some [] ->
  file_path a = None \/ file_path a = Some ""%string ->
  __init__ csv_records csv_undecodable a w
  = (Raise (AssertionError "texts or file_path must be specified."), w).
Proof.
  intros [Ht|Ht] [Hp|Hp]; unfold __init__; now rewrite Ht, Hp.
Qed.

(** X8.  The two file strategies check the path first: when [file_path]
    names no file, the construction raises an assertion error with an
    empty message and the world is as it was (nothing is opened, the
    tokenizer is not called), whether [line_by_line] is set or not. *)
Theorem missing_file_fails_assertion (a : init_args) (p : string) (w : world) :
  from_cache a = false -> texts a = None ->
  file_path a = Some p -> p <> ""%string -> files w !! p = None ->
  is_Some (tokenizer a) ->
  __init__ csv_records csv_undecodable a w = (Raise (AssertionError ""), w).
Proof.
  intros Hc Ht Hp Hne Hf Htok.
  apply init_populate_raises;
    [rewrite Ht, Hp; now apply truthy_str_nonempty | auto |].
  unfold populate. rewrite Hc, Ht.
  { assert (His : isfile (file_path a) w = (Ok false, w)).
    { rewrite Hp. unfold isfile. rewrite Hf.
      rewrite bool_decide_eq_false_2 by (intros [x Hx]; discriminate).
      now rewrite andb_false_r. }
    destruct (truthy_opt_bool (line_by_line a));
      [unfold encode_lines | unfold encode_chunks];
      now rewrite (bind_ok _ _ _ _ _ His). }
Qed.

(** X9.  A file that is not valid UTF-8 makes either file strategy
    raise once the file has been opened, before any call of the
    tokenizer and without changing a file: UnicodeDecodeError, except
    for the line-by-line strategy on a ".csv" path, where the
    exception is the one the reading by the csv module ends with. *)
Theorem undecodable_file_fails
    (a : init_args) (p : string) (bs : list byte) (w : world) :
  from_cache a = false -> texts a = None ->
  file_path a = Some p -> p <> ""%string -> files w !! p = Some bs ->
  is_Some (tokenizer a) ->
  is_ok (read_text bs) = false ->
  __init__ csv_records csv_undecodable a w
  = (Raise (if truthy_opt_bool (line_by_line a) && endswith p ".csv"
            then csv_undecodable bs (header a)
            else UnicodeDecodeError),
     World (files w) (trace w ++ [EvOpen (Some p) "r"])).
Proof.
  intros Hc Ht Hp Hne Hf [tok Htok] Hbad.
  apply read_text_error in Hbad.
  pose proof (open_read_present p "r" bs w Hne Hf) as Hopen.
  apply init_populate_raises;
    [rewrite Ht, Hp; now apply truthy_str_nonempty | rewrite Htok; eauto |].
  unfold populate. rewrite Hc, Ht.
  destruct (truthy_opt_bool (line_by_line a)).
  - unfold encode_lines. rewrite Hp.
    rewrite (bind_ok _ _ _ _ _ (isfile_present p bs w Hne Hf)).
    unfold assert_. unfold mbind at 1, M_bind at 1. simpl.
    unfold read_lines_from_file.
    unfold mbind at 1, M_bind at 1.
    rewrite (bind_ok _ _ _ _ _ Hopen), Hbad.
    now destruct (endswith p ".csv").
  - unfold encode_chunks. rewrite Hp, Htok.
    rewrite (bind_ok _ _ _ _ _ (isfile_present p bs w Hne Hf)).
    unfold assert_. unfold mbind at 1, M_bind at 1. simpl.
    unfold mbind at 1, M_bind at 1. simpl.
    unfold open_text.
    unfold mbind at 1, M_bind at 1.
    rewrite (bind_ok _ _ _ _ _ Hopen). unfold lift. now rewrite Hbad.
Qed.

(** X10.  With an effective block size of zero the chunked strategy
    raises ValueError (the step of [range]); with a negative one it
    produces no example at all, so that the construction returns an
    empty dataset, or fails in [save] when [save_cache] is set. *)
Theorem nonpositive_block_size
    (a : init_args) tok (p : string) (bs : list byte) (txt : text) w :
  from_cache a = false -> texts a = None ->
  truthy_opt_bool (line_by_line a) = false ->
  tokenizer a = Some tok -> file_path a = Some p -> p <> ""%string ->
  files w !! p = Some bs -> read_text bs = Ok txt ->
  let B := block_size a - (max_len tok - max_len_single_sentence tok) in
  (B = 0 ->
   fst (__init__ csv_records csv_undecodable a w)
   = Raise (ValueError "range() arg 3 must not be zero"))
  /\ (B < 0 ->
      fst (__init__ csv_records csv_undecodable a w)
      = if save_cache a
        then Raise (AssertionError "No data loaded to save.")
        else Ok {| examples := [];
                   str_suffix := "from file at " +:+ p +:+ "." |}).
Proof.
  intros Hc Ht Hl Htok Hp Hne Hf Hr B.
  pose proof (populate_chunked csv_records csv_undecodable a tok p bs txt w
                Hc Ht Hl Htok Hp Hne Hf Hr) as Hpop.
  fold B in Hpop.
  assert (H1 : truthy_opt_list (texts a) || truthy_str (file_path a) = true)
    by (rewrite Ht, Hp; now apply truthy_str_nonempty).
  assert (H2 : from_cache a = false -> is_Some (tokenizer a))
    by (rewrite Htok; eauto).
  split.
  - intros HB. rewrite HB in Hpop.
    erewrite bind_raise in Hpop by apply chunk_loop_zero_block.
    now rewrite (init_populate_raises a w _ _ H1 H2 Hpop).
  - intros HB.
    erewrite bind_ok in Hpop by now apply chunk_loop_negative_block.
    rewrite (init_after_populate csv_records csv_undecodable a w _ _ H1 H2 Hpop).
    destruct (save_cache a); [|reflexivity].
    erewrite bind_raise; [reflexivity|]. now apply save_no_examples.
Qed.

(** X11.  A successful chunked construction opens the file once,
    tokenizes its text once, wraps once per example and then logs the
    number of examples; that number, [__len__], is [L / B]. *)
Theorem chunked_construction_trace
    (a : init_args) tok (p : string) (bs : list byte) (txt : text) w :
  from_cache a = false -> texts a = None ->
  truthy_opt_bool (line_by_line a) = false ->
  tokenizer a = Some tok -> file_path a = Some p -> p <> ""%string ->
  files w !! p = Some bs -> read_text bs = Ok txt ->
  save_cache a = false ->
  let B := block_size a - (max_len tok - max_len_single_sentence tok) in
  let L := len (convert_tokens_to_ids tok (tokenize tok txt)) in
  0 < B ->
  exists self,
    __init__ csv_records csv_undecodable a w
    = (Ok self,
       World (files w)
         (trace w
          ++ [EvOpen (Some p) "r"; EvTokenizer "tokenize";
              EvTokenizer "convert_tokens_to_ids"]
          ++ repeat build_event (Z.to_nat (L / B))
          ++ [EvLogSamples (L / B)]))
    /\ __len__ self = L / B.
Proof.
  intros Hc Ht Hl Htok Hp Hne Hf Hr Hs B L HB.
  pose proof (populate_chunked csv_records csv_undecodable a tok p bs txt w
                Hc Ht Hl Htok Hp Hne Hf Hr) as Hpop.
  fold B in Hpop.
  rewrite (bind_ok _ _ _ _ _ (chunk_loop_spec tok _ B _ HB)) in Hpop.
  cbn [files trace] in Hpop. unfold mret, M_ret in Hpop.
  assert (H1 : truthy_opt_list (texts a) || truthy_str (file_path a) = true)
    by (rewrite Ht, Hp; now apply truthy_str_nonempty).
  assert (H2 : from_cache a = false -> is_Some (tokenizer a))
    by (rewrite Htok; eauto).
  eexists. rewrite (init_after_populate csv_records csv_undecodable a w _ _ H1 H2 Hpop), Hs.
  assert (Hlen : forall n : nat,
            len (map (build_inputs_with_special_tokens tok)
                   (map (fun k => firstn (Z.to_nat B)
                                   (skipn (k * Z.to_nat B)
                                      (convert_tokens_to_ids tok
                                         (tokenize tok txt))))
                        (seq 0 n))) = Z.of_nat n).
  { intros n. unfold len. now rewrite !length_map, length_seq. }
  assert (Hq : 0 <= L / B) by (apply Z.div_pos; [apply len_nonneg | lia]).
  split.
  - unfold mbind, M_bind, mret, M_ret. cbn [examples files trace].
    fold L. rewrite Hlen, Z2Nat.id by exact Hq.
    now rewrite <- !app_assoc.
  - unfold __len__. cbn [examples]. fold L. rewrite Hlen. now apply Z2Nat.id.
Qed.

(** X12.  With texts given (and a non-empty list of them), the outcome
    of the construction depends on the tokenizer, the texts, the block
    size and the cache options only: not on [file_path],
    [line_by_line] or [header], and not on any file. *)
Theorem texts_ignore_files
    (a a' : init_args) (ts : list text) (w w' : world) :
  from_cache a = false -> from_cache a' = false ->
  texts a = Some ts -> texts a' = Some ts -> ts <> [] ->
  tokenizer a = tokenizer a' -> block_size a = block_size a' ->
  save_cache a = save_cache a' ->
  cache_destination a = cache_destination a' ->
  fst (__init__ csv_records csv_undecodable a w) = fst (__init__ csv_records csv_undecodable a' w').
Proof.
  intros Hc Hc' Ht Ht' Hts Htok Hbs Hs Hd.
  assert (Heval : forall b v,
    from_cache b = false -> texts b = Some ts ->
    fst (__init__ csv_records csv_undecodable b v)
    = match tokenizer b with
      | None => Raise (AssertionError "A tokenizer must be specified.")
      | Some tok =>
        let self := {| examples := batch_encode_plus tok ts true (block_size b);
                       str_suffix := "via application." |} in
        if save_cache b
        then match cache_destination b with
             | None =>
               if 0 <? len (examples self) then Raise TypeError
               else Raise (AssertionError "No data loaded to save.")
             | Some d =>
               if 0 <? len (examples self) then
                 if String.eqb d "" then Raise FileNotFoundError
                 else match pack (examples self) with
                      | Ok _ => Ok self
                      | Raise e => Raise e
                      end
               else Raise (AssertionError "No data loaded to save.")
             end
        else Ok self
      end).
  { intros b v Hb Hbt. unfold __init__, populate, encode_texts.
    rewrite Hb, Hbt.
    replace (truthy_opt_list (Some ts)) with true
      by (destruct ts; [congruence | reflexivity]).
    destruct (tokenizer b) as [tok|]; [|reflexivity].
    unfold save, assert_, open_write, truncate, emit, raise, lift, write,
      the_tokenizer, mbind, M_bind, mret, M_ret. simpl.
    destruct (save_cache b); [|reflexivity].
    destruct (0 <? len (batch_encode_plus tok ts true (block_size b)));
      destruct (cache_destination b) as [d|]; try reflexivity.
    simpl. destruct (String.eqb d ""); [reflexivity|]. simpl.
    now destruct (pack (batch_encode_plus tok ts true (block_size b))). }
  rewrite (Heval a w Hc Ht), (Heval a' w' Hc' Ht').
  now rewrite Htok, Hbs, Hs, Hd.
Qed.

(** ** The texts of the line strategy *)

(** X13.  The line-by-line strategy on a file that is not a CSV hands
    the tokenizer, in one batch call, the lines that [read_lines]
    keeps; each of them is non-empty, is not made of whitespace only
    and holds no line boundary character. *)
Theorem line_strategy_texts
    (a : init_args) tok (p : string) (bs : list byte) (txt : text) w :
  from_cache a = false -> texts a = None ->
  truthy_opt_bool (line_by_line a) = true ->
  tokenizer a = Some tok -> file_path a = Some p -> p <> ""%string ->
  endswith p ".csv" = false ->
  files w !! p = Some bs -> read_text bs = Ok txt ->
  exists lines : list text,
    populate csv_records csv_undecodable a w
    = (Ok {| examples := batch_encode_plus tok lines true (block_size a);
             str_suffix := "from line-by-line file at " +:+ p +:+ "." |},
       World (files w)
         (trace w ++ [EvOpen (Some p) "r"; EvTokenizer "batch_encode_plus"]))
    /\ fst (read_lines_from_file csv_records csv_undecodable p (header a) w) = Ok lines
    /\ Forall (fun line =>
                 line <> [] /\ isspace line = false
                 /\ Forall (fun c => is_linebreak c = false) line) lines.
Proof.
  intros Hc Ht Hl Htok Hp Hne Hcsv Hf Hr.
  pose proof (read_lines_present csv_records csv_undecodable p (header a) bs txt w Hne Hf Hr)
    as Hread.
  rewrite Hcsv in Hread. cbv zeta in Hread.
  set (body := if header a then snd (readline txt) else txt) in *.
  exists (List.filter keep_line (splitlines body)).
  split; [|split].
  - unfold populate. rewrite Hc, Ht, Hl. unfold encode_lines. rewrite Hp, Htok.
    rewrite (bind_ok _ _ _ _ _ (isfile_present p bs w Hne Hf)).
    unfold assert_. unfold mbind at 1, M_bind at 1. simpl.
    rewrite (bind_ok _ _ _ _ _ Hread).
    unfold emit, mbind, M_bind. simpl. now rewrite <- app_assoc.
  - now rewrite Hread.
  - apply List.Forall_forall. intros line Hin.
    apply List.filter_In in Hin. destruct Hin as [Hin Hkeep].
    unfold keep_line in Hkeep. apply andb_true_iff in Hkeep.
    destruct Hkeep as [Hlen Hsp]. apply Z.ltb_lt in Hlen.
    apply negb_true_iff in Hsp.
    split; [|split; [exact Hsp|]].
    + intros ->. unfold len in Hlen. simpl in Hlen. lia.
    + pose proof (splitlines_no_breaks body) as Hall.
      rewrite List.Forall_forall in Hall. now apply Hall.
Qed.

(** X14.  On a file that is not a CSV and holds a single line, with or
    without its final newline, [header=True] leaves nothing to
    return. *)
Theorem header_only_file_yields_nothing
    (p : string) (bs : list byte) (line : text) (w : world) :
  endswith p ".csv" = false -> p <> ""%string ->
  files w !! p = Some bs ->
  ~ In LF line ->
  read_text bs = Ok line \/ read_text bs = Ok (line ++ [LF]) ->
  fst (read_lines_from_file csv_records csv_undecodable p true w) = Ok [].
Proof.
  intros Hcsv Hne Hf Hnl Hr.
  destruct (readline_without_newline line Hnl) as [R1 R2].
  destruct Hr as [Hr|Hr];
    rewrite (read_lines_present csv_records csv_undecodable p true bs _ w Hne Hf Hr), Hcsv;
    simpl; [rewrite R1 | rewrite R2]; reflexivity.
Qed.

(** ** What each strategy does *)






(** ** Skipping the header *)


End Further_Properties.

(** ** The string representation *)










(** ** The further properties on the sample data *)



(** C2, the claim as stated fails: the examples [[2^64]] are a
    non-empty sequence of sequences of non-negative integers, yet
    [save] raises OverflowError on them and leaves an empty file, from
    which the construction with [from_cache=True] fails. *)
Lemma roundtrip_fails_beyond_msgpack_range :
  examples unpackable_dataset = [[2 ^ 64]]
  /\ fst (save unpackable_dataset (Some "cache.msgpack"%string) sample_world)
     = Raise OverflowError
  /\ files (snd (save unpackable_dataset (Some "cache.msgpack"%string)
                   sample_world)) !! "cache.msgpack"%string
     = Some []
  /\ fst (__init__ no_csv no_csv_error cache_args
            (snd (save unpackable_dataset (Some "cache.msgpack"%string)
                    sample_world)))
     = Raise (ValueError "Unpack failed: incomplete input").
Proof. repeat split; vm_compute; reflexivity. Qed.


Lemma constructor_writes_only_the_cache_witness :
  files (snd (__init__ no_csv no_csv_error (chunk_save_args 5) sample_world))
    !! "corpus.txt"%string
  = files sample_world !! "corpus.txt"%string
  /\ files (snd (__init__ no_csv no_csv_error (chunk_args 5) sample_world))
     = files sample_world.
Proof.
  split.
  - apply (proj1 (constructor_writes_only_the_cache no_csv no_csv_error
                    (chunk_save_args 5) sample_world)).
    discriminate.
  - apply (proj2 (constructor_writes_only_the_cache no_csv no_csv_error
                    (chunk_args 5) sample_world)).
    reflexivity.
Defined.

Lemma save_replaces_destination_witness :
  exists p b,
    Some "cache.msgpack"%string = Some p
    /\ pack (examples sample_dataset) = Ok b
    /\ files (snd (save sample_dataset (Some "cache.msgpack"%string)
                     old_cache_world)) !! p = Some b
    /\ (forall q, q <> p ->
          files (snd (save sample_dataset (Some "cache.msgpack"%string)
                        old_cache_world)) !! q
          = files old_cache_world !! q)
    /\ trace (snd (save sample_dataset (Some "cache.msgpack"%string)
                     old_cache_world))
       = trace old_cache_world
         ++ [EvLogCaching (Some "cache.msgpack"%string);
             EvOpen (Some "cache.msgpack"%string) "wb"]
    /\ exists w2,
         save sample_dataset (Some "cache.msgpack"%string)
           (snd (save sample_dataset (Some "cache.msgpack"%string)
                   old_cache_world))
         = (Ok tt, w2)
         /\ files w2
            = files (snd (save sample_dataset (Some "cache.msgpack"%string)
                            old_cache_world)).
Proof.
  apply (save_replaces_destination sample_dataset
           (Some "cache.msgpack"%string) old_cache_world).
  vm_compute. reflexivity.
Defined.

Lemma save_failure_truncates_witness :
  fst (save unpackable_dataset (Some "cache.msgpack"%string) old_cache_world)
  = Raise OverflowError
  /\ files (snd (save unpackable_dataset (Some "cache.msgpack"%string)
                   old_cache_world)) !! "cache.msgpack"%string
     = Some []
  /\ (forall q, q <> "cache.msgpack"%string ->
        files (snd (save unpackable_dataset (Some "cache.msgpack"%string)
                      old_cache_world)) !! q
        = files old_cache_world !! q).
Proof.
  apply (save_failure_truncates unpackable_dataset "cache.msgpack"
           OverflowError old_cache_world);
    [discriminate | discriminate | vm_compute; reflexivity].
Defined.

Lemma cache_path_failures_witness :
  __init__ no_csv no_csv_error cache_args sample_world
  = (Raise FileNotFoundError,
     World (files sample_world)
       (trace sample_world ++ [EvOpen (Some "cache.msgpack"%string) "rb"]))
  /\ __init__ no_csv no_csv_error cache_without_path_args sample_world
     = (Raise TypeError,
        World (files sample_world)
          (trace sample_world ++ [EvOpen None "rb"])).
Proof.
  split.
  - apply (proj1 (cache_path_failures no_csv no_csv_error cache_args sample_world
                    eq_refl));
      [reflexivity | discriminate | vm_compute; reflexivity].
  - apply (proj2 (cache_path_failures no_csv no_csv_error cache_without_path_args
                    sample_world eq_refl));
      reflexivity.
Defined.


Lemma cached_dataset_reloads_witness :
  exists loaded w2,
    __init__ no_csv no_csv_error reload_args
      (snd (__init__ no_csv no_csv_error (chunk_save_args 5) sample_world))
    = (Ok loaded, w2)
    /\ examples loaded
       = [[1; 104; 101; 108; 2]; [1; 108; 111; 32; 2]; [1; 119; 111; 114; 2]]
    /\ str_suffix loaded = "via cache."%string
    /\ files w2
       = files (snd (__init__ no_csv no_csv_error (chunk_save_args 5) sample_world)).
Proof.
  apply (cached_dataset_reloads no_csv no_csv_error (chunk_save_args 5) reload_args
           sample_world
           (snd (__init__ no_csv no_csv_error (chunk_save_args 5) sample_world))
           {| examples := [[1; 104; 101; 108; 2]; [1; 108; 111; 32; 2];
                           [1; 119; 111; 114; 2]];
              str_suffix := "from file at corpus.txt." |});
    vm_compute; reflexivity.
Defined.

Lemma falsy_arguments_count_as_missing_witness :
  __init__ no_csv no_csv_error falsy_args sample_world
  = (Raise (AssertionError "texts or file_path must be specified."),
     sample_world).
Proof.
  apply (falsy_arguments_count_as_missing no_csv no_csv_error falsy_args sample_world);
    right; reflexivity.
Defined.

Lemma missing_file_fails_assertion_witness :
  __init__ no_csv no_csv_error absent_args sample_world
  = (Raise (AssertionError ""), sample_world).
Proof.
  apply (missing_file_fails_assertion no_csv no_csv_error absent_args "absent.txt"
           sample_world);
    try reflexivity; [discriminate | eexists; reflexivity].
Defined.

Lemma undecodable_file_fails_witness :
  __init__ no_csv no_csv_error (chunk_args 5) bad_world
  = (Raise UnicodeDecodeError,
     World (files bad_world)
       (trace bad_world ++ [EvOpen (Some "corpus.txt"%string) "r"])).
Proof.
  apply (undecodable_file_fails no_csv no_csv_error (chunk_args 5) "corpus.txt"
           [x68; xff; x69] bad_world);
    try reflexivity; [discriminate | eexists; reflexivity].
Defined.

Lemma nonpositive_block_size_witness :
  fst (__init__ no_csv no_csv_error (chunk_args 2) sample_world)
  = Raise (ValueError "range() arg 3 must not be zero")
  /\ fst (__init__ no_csv no_csv_error (chunk_args 1) sample_world)
     = Ok {| examples := []; str_suffix := "from file at corpus.txt." |}.
Proof.
  split.
  - apply (proj1 (nonpositive_block_size no_csv no_csv_error (chunk_args 2)
                    sample_tokenizer "corpus.txt" corpus_bytes
                    [104; 101; 108; 108; 111; 32; 119; 111; 114; 108; 100]
                    sample_world eq_refl eq_refl eq_refl eq_refl eq_refl
                    ltac:(discriminate) eq_refl eq_refl)).
    reflexivity.
  - apply (proj2 (nonpositive_block_size no_csv no_csv_error (chunk_args 1)
                    sample_tokenizer "corpus.txt" corpus_bytes
                    [104; 101; 108; 108; 111; 32; 119; 111; 114; 108; 100]
                    sample_world eq_refl eq_refl eq_refl eq_refl eq_refl
                    ltac:(discriminate) eq_refl eq_refl)).
    reflexivity.
Defined.

Lemma chunked_construction_trace_witness :
  exists self,
    __init__ no_csv no_csv_error (chunk_args 5) sample_world
    = (Ok self,
       World (files sample_world)
         (trace sample_world
          ++ [EvOpen (Some "corpus.txt"%string) "r"; EvTokenizer "tokenize";
              EvTokenizer "convert_tokens_to_ids"]
          ++ repeat build_event 3
          ++ [EvLogSamples 3]))
    /\ __len__ self = 3.
Proof.
  apply (chunked_construction_trace no_csv no_csv_error (chunk_args 5) sample_tokenizer
           "corpus.txt" corpus_bytes
           [104; 101; 108; 108; 111; 32; 119; 111; 114; 108; 100]
           sample_world);
    try reflexivity.
  discriminate.
Defined.

Lemma texts_ignore_files_witness :
  fst (__init__ no_csv no_csv_error texts_only_args sample_world)
  = fst (__init__ no_csv no_csv_error texts_and_file_args bad_world).
Proof.
  apply (texts_ignore_files no_csv no_csv_error texts_only_args texts_and_file_args
           [[104; 105]] sample_world bad_world);
    try reflexivity.
  discriminate.
Defined.

Lemma line_strategy_texts_witness :
  exists lines : list text,
    populate no_csv no_csv_error lines_args sample_world
    = (Ok {| examples := batch_encode_plus sample_tokenizer lines true 1024;
             str_suffix := "from line-by-line file at lines.txt." |},
       World (files sample_world)
         (trace sample_world
          ++ [EvOpen (Some "lines.txt"%string) "r";
              EvTokenizer "batch_encode_plus"]))
    /\ fst (read_lines_from_file no_csv no_csv_error "lines.txt" true sample_world)
       = Ok lines
    /\ Forall (fun line =>
                 line <> [] /\ isspace line = false
                 /\ Forall (fun c => is_linebreak c = false) line) lines.
Proof.
  apply (line_strategy_texts no_csv no_csv_error lines_args sample_tokenizer "lines.txt"
           lines_bytes
           [116; 105; 116; 108; 101; 10; 102; 105; 114; 115; 116; 10; 10;
            32; 32; 10; 115; 101; 99; 111; 110; 100; 10]
           sample_world);
    try reflexivity.
  discriminate.
Defined.

Lemma header_only_file_yields_nothing_witness :
  fst (read_lines_from_file no_csv no_csv_error "lines.txt" true one_line_world) = Ok [].
Proof.
  apply (header_only_file_yields_nothing no_csv no_csv_error "lines.txt"
           [x74; x69; x74; x6c; x65; x0a] [116; 105; 116; 108; 101]
           one_line_world);
    [reflexivity | discriminate | vm_compute; reflexivity | | right; reflexivity].
  simpl. intros H.
  repeat (destruct H as [H|H]; [discriminate|]). exact H.
Defined.

(** [repr] of datasets of 3 and of 1234 examples. *)
Example repr_run :
  __repr__ {| examples := [[1]; [2]; [3]]; str_suffix := "via cache." |}
  = "TokenDataset containing 3 examples loaded via cache."%string
  /\ __repr__ {| examples := repeat [7] 1234;
                 str_suffix := "from file at corpus.txt." |}
     = "TokenDataset containing 1,234 examples loaded from file at corpus.txt."%string.
Proof. split; vm_compute; reflexivity. Qed.
